(** * MCP tool servers: the memory-store and slack adapters

    A shallow embedding of [servers/memory-store/src/index.ts] and
    [servers/slack/src/index.ts].  Both servers are written against the
    Effect library and the MCP SDK: a tool call is dispatched on its name,
    the arguments are extracted, a service operation is built as an effect,
    and the effect is run and folded into a protocol response.

    - The store of the memory-store server is a JavaScript [Map]; it is a
      [gmap] from JavaScript values to JavaScript values, because the call
      handler casts the raw arguments without checking them.
    - The Slack Web API is the outside world: a record of methods acting on
      an abstract world state.  Every call issued, and the settle delay, is
      appended to a log, so that order can be stated.
    - An effect is a function from a state to an exit and a state; an exit is
      a success, a typed failure, or a defect (an exception thrown while the
      effect ran). *)

From stdpp Require Import gmap strings list fin_maps pretty.

Set Warnings "-register-all".

(** ** JavaScript values *)

Module JS.

(** The primitive values a tool argument can carry.  [JUndefined] is what
    reading an absent property gives.  Numbers are restricted to integers. *)
Inductive jsval : Type :=
  | JUndefined
  | JNull
  | JBool (b : bool)
  | JNum (n : Z)
  | JStr (s : string).

#[global] Instance jsval_eq_dec : EqDecision jsval.
Proof. solve_decision. Defined.

#[global] Instance jsval_countable : Countable jsval.
Proof.
  refine (inj_countable'
    (fun v => match v with
       | JUndefined => inl (inl (inl (inl ())))
       | JNull => inl (inl (inl (inr ())))
       | JBool b => inl (inl (inr b))
       | JNum n => inl (inr n)
       | JStr s => inr s
       end)
    (fun x => match x with
       | inl (inl (inl (inl _))) => JUndefined
       | inl (inl (inl (inr _))) => JNull
       | inl (inl (inr b)) => JBool b
       | inl (inr n) => JNum n
       | inr s => JStr s
       end) _).
  by intros [].
Defined.

(** [String(v)], also what a template literal does to [v] and what a
    property key is converted with.  A number is printed with all its
    digits, which is what the source prints for an integer of magnitude
    below 10^21; from there on the source prints an exponent, so texts built
    from numbers are only stated for strings and [undefined]. *)
Definition to_String (v : jsval) : string :=
  match v with
  | JUndefined => "undefined"
  | JNull => "null"
  | JBool true => "true"
  | JBool false => "false"
  | JNum n => pretty n
  | JStr s => s
  end.

(** [typeof]-like name of a value, as zod reports it. *)
Definition type_name (v : jsval) : string :=
  match v with
  | JUndefined => "undefined"
  | JNull => "null"
  | JBool _ => "boolean"
  | JNum _ => "number"
  | JStr _ => "string"
  end.

(** Truthiness of an optional string ([undefined] and [''] are falsy). *)
Definition truthy_str (o : option string) : bool :=
  match o with
  | Some s => negb (String.eqb s "")
  | None => false
  end.

(** Truthiness of an optional boolean. *)
Definition truthy_bool (o : option bool) : bool :=
  match o with
  | Some b => b
  | None => false
  end.

(** [a || d] on an optional string. *)
Definition or_else (o : option string) (d : string) : string :=
  match o with
  | Some s => if String.eqb s "" then d else s
  | None => d
  end.

(** [a ?? d] on an optional string. *)
Definition nullish (o : option string) (d : string) : string :=
  match o with
  | Some s => s
  | None => d
  end.

(** The raw [arguments] of a tool call: absent, or a mapping from names to
    values.  Reading an absent name gives [undefined]. *)
Abbreviation arguments := (option (gmap string jsval)).

Definition prop (o : gmap string jsval) (name : string) : jsval :=
  default JUndefined (o !! name).

(** What [JSON.stringify] is given. *)
Inductive json : Type :=
  | JsonUndefined
  | JsonNull
  | JsonBool (b : bool)
  | JsonNum (n : Z)
  | JsonStr (s : string)
  | JsonArr (items : list json)
  | JsonObj (fields : list (string * json)).

Class ToJson (A : Type) := to_json : A -> json.

#[global] Instance jsval_to_json : ToJson jsval :=
  fun v => match v with
           | JUndefined => JsonUndefined
           | JNull => JsonNull
           | JBool b => JsonBool b
           | JNum n => JsonNum n
           | JStr s => JsonStr s
           end.

#[global] Instance unit_to_json : ToJson unit := fun _ => JsonUndefined.

#[global] Instance string_to_json : ToJson string := JsonStr.

#[global] Instance record_to_json : ToJson (gmap string jsval) :=
  fun o => JsonObj (prod_map id to_json <$> map_to_list o).

(** A statement either completes normally or throws. *)
Inductive completion (X A : Type) : Type :=
  | Normal (a : A)
  | Throw (x : X).
#[global] Arguments Normal {X A} a.
#[global] Arguments Throw {X A} x.

End JS.

(** ** The MCP SDK types the servers use *)

Module Mcp.

(** The SDK's [ErrorCode] enumeration. *)
Inductive ErrorCode : Type :=
  | ConnectionClosed
  | RequestTimeout
  | ParseError
  | InvalidRequest
  | MethodNotFound
  | InvalidParams
  | InternalError.

(** [new McpError(code, message)]. *)
Record McpError : Type := mkMcpError {
  code : ErrorCode;
  mcp_message : string
}.

(** One block of a tool result. *)
Record TextContent : Type := mkTextContent {
  type : string;
  text : string
}.

(** The value a call handler returns: [{ content, isError? }]. *)
Record CallToolResult : Type := mkCallToolResult {
  content : list TextContent;
  isError : option bool
}.

End Mcp.

(** ** zod schemas *)

Module Zod.
Import JS.

(** An issue of a [ZodError]: where it is, what was expected, what was
    received, and the message. *)
Record ZodIssue : Type := mkZodIssue {
  path : list string;
  expected : string;
  received : string;
  issue_message : string
}.

Definition invalid_type (p : list string) (exp : string) (v : jsval) : ZodIssue :=
  {| path := p;
     expected := exp;
     received := type_name v;
     issue_message :=
       match v with
       | JUndefined => "Required"
       | _ => "Expected " +:+ exp +:+ ", received " +:+ type_name v
       end |}.

(** [z.string()] at property [name]. *)
Definition z_string (name : string) (v : jsval) : list ZodIssue + string :=
  match v with
  | JStr s => inr s
  | _ => inl [invalid_type [name] "string" v]
  end.

(** [z.number().optional()] at property [name]. *)
Definition z_number_optional (name : string) (v : jsval) : list ZodIssue + option Z :=
  match v with
  | JUndefined => inr None
  | JNum n => inr (Some n)
  | _ => inl [invalid_type [name] "number" v]
  end.

Definition issues {A : Type} (r : list ZodIssue + A) : list ZodIssue :=
  match r with
  | inl l => l
  | inr _ => []
  end.

(** [z.object(shape).parse(raw)] on an absent [raw]. *)
Definition not_an_object : list ZodIssue :=
  [invalid_type [] "object" JUndefined].

End Zod.

(** ** Effects *)

Module Effect.
Import JS.

(** Why an effect failed: a typed failure, or a defect. *)
Inductive Cause (E : Type) : Type :=
  | Fail (e : E)
  | Die (defect : E).
#[global] Arguments Fail {E} e.
#[global] Arguments Die {E} defect.

Inductive Exit (E A : Type) : Type :=
  | Success (a : A)
  | Failure (c : Cause E).
#[global] Arguments Success {E A} a.
#[global] Arguments Failure {E A} c.

(** An effect over a state [S]. *)
Definition Effect (S E A : Type) : Type := S -> Exit E A * S.

Definition succeed {S E A} (a : A) : Effect S E A :=
  fun s => (Success a, s).

(** [throw] inside a generator body: a defect. *)
Definition die {S E A} (e : E) : Effect S E A :=
  fun s => (Failure (Die e), s).

(** [yield* _(m)] followed by the rest of the generator body. *)
Definition bind {S E A B} (m : Effect S E A) (k : A -> Effect S E B) : Effect S E B :=
  fun s =>
    match m s with
    | (Success a, s') => k a s'
    | (Failure c, s') => (Failure c, s')
    end.

(** [Effect.map]. *)
Definition map {S E A B} (f : A -> B) (m : Effect S E A) : Effect S E B :=
  bind m (fun a => succeed (f a)).

(** [Effect.sync(thunk)]: an exception thrown by the thunk is a defect. *)
Definition sync {S E A} (thunk : S -> completion E A * S) : Effect S E A :=
  fun s =>
    match thunk s with
    | (Normal a, s') => (Success a, s')
    | (Throw e, s') => (Failure (Die e), s')
    end.

(** The fault a cause carries. *)
Definition squash {E} (c : Cause E) : E :=
  match c with
  | Fail e => e
  | Die e => e
  end.

(** [Effect.runSync]: the value of the effect; a failed effect makes it
    throw the failure, which carries the cause. *)
Definition runSync {S E A} (m : Effect S E A) : S -> completion (Cause E) A * S :=
  fun s =>
    match m s with
    | (Success a, s') => (Normal a, s')
    | (Failure c, s') => (Throw c, s')
    end.

End Effect.

Declare Scope effect_scope.
Delimit Scope effect_scope with eff.
Notation "x <- m ;; k" := (Effect.bind m (fun x => k))
  (at level 100, m at next level, right associativity) : effect_scope.
Notation "m ;;; k" := (Effect.bind m (fun _ => k))
  (at level 100, right associativity) : effect_scope.

(** ** The memory-store server *)

Module MemoryStore.
Import JS Mcp Effect.

(** [this.store]: a [Map]. *)
Abbreviation Store := (gmap jsval jsval).

(** The store as its declared type [Map<string, string>] has it: every key
    is a string. *)
Definition string_keys (store : Store) : Prop :=
  map_Forall (fun key _ => exists s, key = JStr s) store.

(** What a call handler can throw: an [McpError] of its own, the
    [TypeError] of a destructuring, or the failure [Effect.runSync] throws
    for a failed effect. *)
Inductive exn : Type :=
  | McpErr (e : McpError)
  | TypeError
  | FiberFailure (cause : Cause McpError).

Definition key_not_found (key : jsval) : McpError :=
  mkMcpError InvalidRequest ("キーが見つかりません: " +:+ to_String key).

(** [MemoryStoreImpl.set] *)
Definition store_set (key value : jsval) : Effect Store McpError unit :=
  sync (fun store => (Normal (), <[key := value]> store)).

(** [MemoryStoreImpl.get]: [Map.get] gives [undefined] for an absent key. *)
Definition store_get (key : jsval) : Effect Store McpError jsval :=
  sync (fun store =>
    let value := default JUndefined (store !! key) in
    if decide (value = JUndefined)
    then (Throw (key_not_found key), store)
    else (Normal value, store)).

(** [MemoryStoreImpl.delete] *)
Definition store_delete (key : jsval) : Effect Store McpError unit :=
  sync (fun store =>
    if negb (bool_decide (is_Some (store !! key)))
    then (Throw (key_not_found key), store)
    else (Normal (), delete key store)).

(** [Object.fromEntries(entries)]: every key becomes a property name.  Of
    two keys with one property name the source keeps the entry set last; the
    order of insertion is not part of this model, so the record is what the
    source builds for a store without such keys, as one of string keys is. *)
Definition fromEntries (store : Store) : gmap string jsval :=
  list_to_map (prod_map to_String id <$> map_to_list store).

(** [MemoryStoreImpl.list] *)
Definition store_list : Effect Store McpError (gmap string jsval) :=
  sync (fun store => (Normal (fromEntries store), store)).

(** The names of the tools the server lists. *)
Definition tools : list string :=
  ["set_value"; "get_value"; "delete_value"; "list_values"].

(** The [required] list of each tool's [inputSchema]. *)
Definition required (name : string) : list string :=
  if decide (name = "set_value") then ["key"; "value"]
  else if decide (name = "get_value") then ["key"]
  else if decide (name = "delete_value") then ["key"]
  else [].

Section Handler.

(** [JSON.stringify(result, null, 2)] *)
Variable JSON_stringify : json -> string.

(** [handleEffect]: the effect is mapped to a result and run with
    [Effect.runSync]; nothing is caught. *)
Definition handleEffect {A} `{ToJson A}
    (effect : Effect Store McpError A) (successMessage : option string)
    : Store -> completion exn CallToolResult * Store :=
  fun store =>
    match runSync (Effect.map (fun result =>
            {| content :=
                 [ {| type := "text";
                      text := if truthy_str successMessage
                              then default "" successMessage
                              else JSON_stringify (to_json result) |} ];
               isError := None |}) effect) store with
    | (Normal r, store') => (Normal r, store')
    | (Throw cause, store') => (Throw (FiberFailure cause), store')
    end.

(** The [CallToolRequestSchema] handler.  The arguments are destructured
    after a cast; destructuring [undefined] throws a [TypeError]. *)
Definition callTool (name : string) (args : arguments)
    : Store -> completion exn CallToolResult * Store :=
  fun store =>
    if decide (name = "set_value") then
      match args with
      | None => (Throw TypeError, store)
      | Some o =>
          let key := prop o "key" in
          let value := prop o "value" in
          handleEffect (store_set key value)
            (Some ("値を保存しました: " +:+ to_String key +:+ " = " +:+ to_String value))
            store
      end
    else if decide (name = "get_value") then
      match args with
      | None => (Throw TypeError, store)
      | Some o => handleEffect (store_get (prop o "key")) None store
      end
    else if decide (name = "delete_value") then
      match args with
      | None => (Throw TypeError, store)
      | Some o =>
          let key := prop o "key" in
          handleEffect (store_delete key)
            (Some ("値を削除しました: " +:+ to_String key))
            store
      end
    else if decide (name = "list_values") then
      handleEffect store_list None store
    else
      (Throw (McpErr (mkMcpError MethodNotFound ("不明なツール: " +:+ name))), store).

End Handler.

End MemoryStore.

(** ** The slack server *)

Module Slack.
Import JS Mcp Zod Effect.

(** [class SlackError extends Error]: the one error class of the server.
    Its [_tag] and its [name] are the constant ['SlackError'], so an error is
    told from another by its message only. *)
Record SlackError : Type := mkSlackError {
  message : string
}.

(** *** Arguments and their schemas *)

Record SendMessageArgs : Type := mkSendMessageArgs {
  send_channel : string;
  send_text : string
}.

Record ListChannelsArgs : Type := mkListChannelsArgs {
  channels_limit : option Z
}.

Record ListUsersArgs : Type := mkListUsersArgs {
  users_limit : option Z
}.

Record GetLatestMessageArgs : Type := mkGetLatestMessageArgs {
  latest_channel : string
}.

(** [SendMessageSchema.parse]: every failing field contributes its issue. *)
Definition SendMessageSchema_parse (raw : arguments) : list ZodIssue + SendMessageArgs :=
  match raw with
  | None => inl not_an_object
  | Some o =>
      match z_string "channel" (prop o "channel"), z_string "text" (prop o "text") with
      | inr c, inr t => inr (mkSendMessageArgs c t)
      | rc, rt => inl (issues rc ++ issues rt)
      end
  end.

Definition ListChannelsSchema_parse (raw : arguments) : list ZodIssue + ListChannelsArgs :=
  match raw with
  | None => inl not_an_object
  | Some o =>
      match z_number_optional "limit" (prop o "limit") with
      | inr l => inr (mkListChannelsArgs l)
      | inl iss => inl iss
      end
  end.

Definition ListUsersSchema_parse (raw : arguments) : list ZodIssue + ListUsersArgs :=
  match raw with
  | None => inl not_an_object
  | Some o =>
      match z_number_optional "limit" (prop o "limit") with
      | inr l => inr (mkListUsersArgs l)
      | inl iss => inl iss
      end
  end.

Definition GetLatestMessageSchema_parse (raw : arguments)
    : list ZodIssue + GetLatestMessageArgs :=
  match raw with
  | None => inl not_an_object
  | Some o =>
      match z_string "channel" (prop o "channel") with
      | inr c => inr (mkGetLatestMessageArgs c)
      | inl iss => inl iss
      end
  end.

(** *** The Slack Web API *)

(** A response of the Web API: [{ ok: boolean; error?: string } & T]. *)
Record Response (T : Type) : Type := mkResponse {
  ok : bool;
  error : option string;
  body : T
}.
#[global] Arguments mkResponse {T} ok error body.
#[global] Arguments ok {T} r.
#[global] Arguments error {T} r.
#[global] Arguments body {T} r.

Record AuthTestBody : Type := mkAuthTestBody {
  user_id : option string
}.

Record Channel : Type := mkChannel {
  channel_id : option string;
  channel_name : option string;
  is_private : option bool;
  num_members : option Z
}.

Record ConversationsInfoBody : Type := mkConversationsInfoBody {
  channel : option Channel
}.

Record ConversationsMembersBody : Type := mkConversationsMembersBody {
  members : option (list string)
}.

Record ChatPostMessageBody : Type := mkChatPostMessageBody {
  post_ts : option string;
  post_channel : option string
}.

Record ConversationsListBody : Type := mkConversationsListBody {
  channels : option (list Channel)
}.

Record Member : Type := mkMember {
  member_id : option string;
  member_name : option string;
  real_name : option string;
  is_bot : option bool
}.

Record UsersListBody : Type := mkUsersListBody {
  users_members : option (list Member)
}.

Record Message : Type := mkMessage {
  msg_text : option string;
  msg_user : option string;
  msg_ts : option string;
  msg_thread_ts : option string
}.

Record ConversationsHistoryBody : Type := mkConversationsHistoryBody {
  messages : option (list Message)
}.

(** A promise, once settled; a rejection is kept as [String(e)]. *)
Inductive Promise (A : Type) : Type :=
  | Resolved (a : A)
  | Rejected (reason : string).
#[global] Arguments Resolved {A} a.
#[global] Arguments Rejected {A} reason.

(** [api.client]: the methods the server calls, over a world [W] that a call
    may change. *)
Record WebClient (W : Type) : Type := mkWebClient {
  auth_test : W -> Promise (Response AuthTestBody) * W;
  conversations_info : string -> W -> Promise (Response ConversationsInfoBody) * W;
  conversations_members : string -> W -> Promise (Response ConversationsMembersBody) * W;
  conversations_invite : string -> string -> W -> Promise (Response unit) * W;
  conversations_join : string -> W -> Promise (Response unit) * W;
  chat_postMessage : string -> string -> W -> Promise (Response ChatPostMessageBody) * W;
  conversations_list : option Z -> W -> Promise (Response ConversationsListBody) * W;
  users_list : option Z -> W -> Promise (Response UsersListBody) * W;
  conversations_history : string -> Z -> W -> Promise (Response ConversationsHistoryBody) * W
}.
#[global] Arguments auth_test {W} _ _.
#[global] Arguments conversations_info {W} _ _ _.
#[global] Arguments conversations_members {W} _ _ _.
#[global] Arguments conversations_invite {W} _ _ _ _.
#[global] Arguments conversations_join {W} _ _ _.
#[global] Arguments chat_postMessage {W} _ _ _ _.
#[global] Arguments conversations_list {W} _ _ _.
#[global] Arguments users_list {W} _ _ _.
#[global] Arguments conversations_history {W} _ _ _ _.

(** What the server does to the outside, in the order it does it. *)
Inductive Call : Type :=
  | AuthTest
  | ConversationsInfo (channel : string)
  | ConversationsMembers (channel : string)
  | ConversationsInvite (channel users : string)
  | ConversationsJoin (channel : string)
  | ChatPostMessage (channel text : string)
  | ConversationsList (limit : option Z)
  | UsersList (limit : option Z)
  | ConversationsHistory (channel : string) (limit : Z)
  | Sleep (millis : Z).

#[global] Instance Call_eq_dec : EqDecision Call.
Proof. solve_decision. Defined.

(** The world, and the log of what was done to it. *)
Record State (W : Type) : Type := mkState {
  world : W;
  log : list Call
}.
#[global] Arguments mkState {W} world log.
#[global] Arguments world {W} s.
#[global] Arguments log {W} s.

(** A join or an invite. *)
Definition is_join (c : Call) : bool :=
  match c with
  | ConversationsInvite _ _ | ConversationsJoin _ => true
  | _ => false
  end.

(** The operation a channel-scoped tool guards: a send or a read. *)
Definition is_guarded (c : Call) : bool :=
  match c with
  | ChatPostMessage _ _ | ConversationsHistory _ _ => true
  | _ => false
  end.

(** *** Results of the service *)

Record SendMessageResult : Type := mkSendMessageResult {
  res_status : string;
  res_ts : string;
  res_channel : string
}.

Record ChannelInfo : Type := mkChannelInfo {
  info_id : string;
  info_name : string;
  info_is_private : bool;
  info_num_members : option Z
}.

Record UserInfo : Type := mkUserInfo {
  user_info_id : string;
  user_info_name : string;
  user_info_real_name : option string;
  user_info_is_bot : option bool
}.

Record MessageResponse : Type := mkMessageResponse {
  mr_text : option string;
  mr_user : option string;
  mr_ts : option string;
  mr_thread_ts : option string
}.

(** A property whose value is [undefined] is left out by [JSON.stringify]. *)
Definition field {A} (f : A -> json) (name : string) (o : option A) : list (string * json) :=
  match o with
  | Some a => [(name, f a)]
  | None => []
  end.

#[global] Instance SendMessageResult_to_json : ToJson SendMessageResult :=
  fun r => JsonObj [("status", JsonStr (res_status r));
                    ("ts", JsonStr (res_ts r));
                    ("channel", JsonStr (res_channel r))].

#[global] Instance ChannelInfo_to_json : ToJson ChannelInfo :=
  fun c => JsonObj ([("id", JsonStr (info_id c));
                     ("name", JsonStr (info_name c));
                     ("is_private", JsonBool (info_is_private c))]
                    ++ field JsonNum "num_members" (info_num_members c)).

#[global] Instance UserInfo_to_json : ToJson UserInfo :=
  fun u => JsonObj ([("id", JsonStr (user_info_id u));
                     ("name", JsonStr (user_info_name u))]
                    ++ field JsonStr "real_name" (user_info_real_name u)
                    ++ field JsonBool "is_bot" (user_info_is_bot u)).

#[global] Instance MessageResponse_to_json : ToJson MessageResponse :=
  fun m => JsonObj (field JsonStr "text" (mr_text m)
                    ++ field JsonStr "user" (mr_user m)
                    ++ field JsonStr "ts" (mr_ts m)
                    ++ field JsonStr "thread_ts" (mr_thread_ts m)).

(** [{ channels: [...] }] and [{ users: [...] }] *)
Record ChannelsResult : Type := mkChannelsResult { res_channels : list ChannelInfo }.
Record UsersResult : Type := mkUsersResult { res_users : list UserInfo }.

#[global] Instance ChannelsResult_to_json : ToJson ChannelsResult :=
  fun r => JsonObj [("channels", JsonArr (to_json <$> res_channels r))].

#[global] Instance UsersResult_to_json : ToJson UsersResult :=
  fun r => JsonObj [("users", JsonArr (to_json <$> res_users r))].

(** *** The service *)

Section Service.

Context {W : Type}.
Variable api : WebClient W.

(** [JSON.stringify(result, null, 2)] *)
Variable JSON_stringify : json -> string.

Abbreviation Eff := (Effect (State W) SlackError).

(** [Effect.tryPromise({ try, catch })]: the call is issued and logged; a
    rejection becomes the typed failure [catch] builds. *)
Definition tryPromise {A} (c : Call) (try : W -> Promise A * W)
    (catch : string -> SlackError) : Eff A :=
  fun st =>
    let st' w := mkState w (log st ++ [c]) in
    match try (world st) with
    | (Resolved a, w) => (Success a, st' w)
    | (Rejected e, w) => (Failure (Fail (catch e)), st' w)
    end.

(** [Effect.sleep(Duration.millis(n))] *)
Definition sleep (millis : Z) : Eff unit :=
  fun st => (Success (), mkState (world st) (log st ++ [Sleep millis])).

(** A plain call inside a generator body: what it throws is a defect. *)
Definition attempt {A} (c : completion SlackError A) : Eff A :=
  match c with
  | Normal a => succeed a
  | Throw e => die e
  end.

(** [handleSlackResponse] *)
Definition handleSlackResponse {T} (response : Response T)
    : completion SlackError (Response T) :=
  if negb (ok response)
  then Throw (mkSlackError (or_else (error response) "Unknown Slack error"))
  else Normal response.

(** A settled call failed: its promise was rejected, or its response is
    not ok. *)
Definition failed {T} (p : Promise (Response T)) : bool :=
  match p with
  | Resolved r => negb (ok r)
  | Rejected _ => true
  end.

(** What a failed call leaves in the effect that awaited and checked it:
    the typed failure [catch] built, or the defect [handleSlackResponse]
    threw. *)
Definition fault {T} (catch : string -> SlackError) (p : Promise (Response T))
    : Cause SlackError :=
  match p with
  | Rejected e => Fail (catch e)
  | Resolved r => Die (mkSlackError (or_else (error r) "Unknown Slack error"))
  end.

(** [ensureChannelAccess].  The join or invite call is issued where
    [joinPromise] is built, which is just before it is awaited. *)
Definition ensureChannelAccess (channelId : string) : Eff unit :=
  (authTest <- tryPromise AuthTest (auth_test api)
                 (fun e => mkSlackError ("Auth test failed: " +:+ e)) ;;
   botInfo <- attempt (handleSlackResponse authTest) ;;
   if negb (truthy_str (user_id (body botInfo)))
   then die (mkSlackError "Bot user ID not found")
   else
     let bot := default "" (user_id (body botInfo)) in
     channelInfo <- tryPromise (ConversationsInfo channelId)
                      (conversations_info api channelId)
                      (fun e => mkSlackError ("Channel info failed: " +:+ e)) ;;
     validChannelInfo <- attempt (handleSlackResponse channelInfo) ;;
     membersResult <- tryPromise (ConversationsMembers channelId)
                        (conversations_members api channelId)
                        (fun e => mkSlackError ("Get members failed: " +:+ e)) ;;
     members_ <- attempt (handleSlackResponse membersResult) ;;
     match members (body members_) with
     | Some ids =>
         if negb (bool_decide (bot ∈ ids)) then
           match channel (body validChannelInfo) with
           | None => die (mkSlackError "Channel information not found")
           | Some ch =>
               joinResult <-
                 (if truthy_bool (is_private ch)
                  then tryPromise (ConversationsInvite channelId bot)
                         (conversations_invite api channelId bot)
                         (fun e => mkSlackError ("Join channel failed: " +:+ e))
                  else tryPromise (ConversationsJoin channelId)
                         (conversations_join api channelId)
                         (fun e => mkSlackError ("Join channel failed: " +:+ e))) ;;
               _ <- attempt (handleSlackResponse joinResult) ;;
               sleep 2000
           end
         else succeed ()
     | None => succeed ()
     end)%eff.

(** [service.sendMessage] *)
Definition sendMessage (args : SendMessageArgs) : Eff SendMessageResult :=
  (ensureChannelAccess (send_channel args) ;;;
   result <- tryPromise (ChatPostMessage (send_channel args) (send_text args))
               (chat_postMessage api (send_channel args) (send_text args))
               (fun e => mkSlackError ("Send message failed: " +:+ e)) ;;
   response <- attempt (handleSlackResponse result) ;;
   if negb (truthy_str (post_ts (body response)))
      || negb (truthy_str (post_channel (body response)))
   then die (mkSlackError "Invalid response from Slack API")
   else succeed {| res_status := "success";
                   res_ts := default "" (post_ts (body response));
                   res_channel := default "" (post_channel (body response)) |})%eff.

(** [service.listChannels] *)
Definition listChannels (args : ListChannelsArgs) : Eff ChannelsResult :=
  (result <- tryPromise (ConversationsList (channels_limit args))
               (conversations_list api (channels_limit args))
               (fun e => mkSlackError ("List channels failed: " +:+ e)) ;;
   response <- attempt (handleSlackResponse result) ;;
   match channels (body response) with
   | None => succeed (mkChannelsResult [])
   | Some chs =>
       succeed (mkChannelsResult
         (List.filter
            (fun c => negb (String.eqb (info_id c) "") && negb (String.eqb (info_name c) ""))
            ((fun ch => {| info_id := nullish (channel_id ch) "";
                           info_name := nullish (channel_name ch) "";
                           info_is_private := truthy_bool (is_private ch);
                           info_num_members := num_members ch |}) <$> chs)))
   end)%eff.

(** [service.listUsers] *)
Definition listUsers (args : ListUsersArgs) : Eff UsersResult :=
  (result <- tryPromise (UsersList (users_limit args))
               (users_list api (users_limit args))
               (fun e => mkSlackError ("List users failed: " +:+ e)) ;;
   response <- attempt (handleSlackResponse result) ;;
   match users_members (body response) with
   | None => succeed (mkUsersResult [])
   | Some ms =>
       succeed (mkUsersResult
         (List.filter
            (fun u => negb (String.eqb (user_info_id u) "")
                      && negb (String.eqb (user_info_name u) ""))
            ((fun user => {| user_info_id := nullish (member_id user) "";
                             user_info_name := nullish (member_name user) "";
                             user_info_real_name := real_name user;
                             user_info_is_bot := is_bot user |}) <$> ms)))
   end)%eff.

(** [service.getLatestMessage] *)
Definition getLatestMessage (args : GetLatestMessageArgs) : Eff MessageResponse :=
  (ensureChannelAccess (latest_channel args) ;;;
   result <- tryPromise (ConversationsHistory (latest_channel args) 1)
               (conversations_history api (latest_channel args) 1)
               (fun e => mkSlackError ("Get latest message failed: " +:+ e)) ;;
   response <- attempt (handleSlackResponse result) ;;
   match messages (body response) with
   | None | Some [] =>
       succeed (mkMessageResponse (Some "No messages found in the channel") None None None)
   | Some (message :: _) =>
       succeed {| mr_text := msg_text message;
                  mr_user := msg_user message;
                  mr_ts := msg_ts message;
                  mr_thread_ts := msg_thread_ts message |}
   end)%eff.

(** *** The server *)

(** The names of the tools the server lists. *)
Definition tools : list string :=
  ["send_message"; "list_channels"; "list_users"; "get_latest_message"].

(** The [required] list of each tool's [inputSchema]. *)
Definition required (name : string) : list string :=
  if decide (name = "send_message") then ["channel"; "text"]
  else if decide (name = "get_latest_message") then ["channel"]
  else [].

(** What the call handler can throw. *)
Inductive exn : Type :=
  | McpErr (e : McpError)
  | ZodError (issues : list ZodIssue).

(** [handleResult]: [Effect.runPromise(effect).then(onResult, onError)].
    For a failed effect the promise is rejected with the failure, whose
    [message] is the message of the fault. *)
Definition handleResult {A} `{ToJson A} (effect : Eff A)
    : State W -> completion exn CallToolResult * State W :=
  fun st =>
    match effect st with
    | (Success result, st') =>
        (Normal {| content := [ {| type := "text";
                                   text := JSON_stringify (to_json result) |} ];
                   isError := None |}, st')
    | (Failure c, st') =>
        (Normal {| content := [ {| type := "text";
                                   text := "Slack API error: " +:+ message (squash c) |} ];
                   isError := Some true |}, st')
    end.

(** The [CallToolRequestSchema] handler. *)
Definition callTool (name : string) (args : arguments)
    : State W -> completion exn CallToolResult * State W :=
  fun st =>
    if decide (name = "send_message") then
      match SendMessageSchema_parse args with
      | inl iss => (Throw (ZodError iss), st)
      | inr a => handleResult (sendMessage a) st
      end
    else if decide (name = "list_channels") then
      match ListChannelsSchema_parse args with
      | inl iss => (Throw (ZodError iss), st)
      | inr a => handleResult (listChannels a) st
      end
    else if decide (name = "list_users") then
      match ListUsersSchema_parse args with
      | inl iss => (Throw (ZodError iss), st)
      | inr a => handleResult (listUsers a) st
      end
    else if decide (name = "get_latest_message") then
      match GetLatestMessageSchema_parse args with
      | inl iss => (Throw (ZodError iss), st)
      | inr a => handleResult (getLatestMessage a) st
      end
    else
      (Throw (McpErr (mkMcpError MethodNotFound ("Unknown tool: " +:+ name))), st).

End Service.

End Slack.

(** ** A small workspace to run the slack server against

    One channel, ["C1"]; the bot is ["UBOT"].  The world records whether the
    channel is private, the member list the workspace reports (if it reports
    one), and the error a join or an invite is answered with (if any). *)

Module Workspace.
Import JS Mcp Slack.

Record World : Type := mkWorld {
  w_private : bool;
  w_members : option (list string);
  w_join_error : option string
}.

Definition answer {T} (b : T) : Promise (Response T) :=
  Resolved (mkResponse true None b).

Definition refuse {T} (e : string) (b : T) : Promise (Response T) :=
  Resolved (mkResponse false (Some e) b).

Definition the_channel (w : World) : Channel :=
  mkChannel (Some "C1") (Some "general") (Some (w_private w)) None.

Definition enter (user : string) (w : World) : Promise (Response unit) * World :=
  match w_join_error w with
  | Some e => (refuse e (), w)
  | None =>
      (answer (),
       mkWorld (w_private w) (Some (default [] (w_members w) ++ [user])) None)
  end.

Definition client : WebClient World :=
  {| auth_test := fun w => (answer (mkAuthTestBody (Some "UBOT")), w);
     conversations_info := fun c w =>
       if decide (c = "C1")
       then (answer (mkConversationsInfoBody (Some (the_channel w))), w)
       else (refuse "channel_not_found" (mkConversationsInfoBody None), w);
     conversations_members := fun c w =>
       (answer (mkConversationsMembersBody (w_members w)), w);
     conversations_invite := fun c u w => enter u w;
     conversations_join := fun c w => enter "UBOT" w;
     chat_postMessage := fun c t w =>
       (answer (mkChatPostMessageBody (Some "1700000000.000100") (Some c)), w);
     conversations_list := fun l w =>
       (answer (mkConversationsListBody (Some [the_channel w])), w);
     users_list := fun l w => (answer (mkUsersListBody None), w);
     conversations_history := fun c l w =>
       (answer (mkConversationsHistoryBody (Some [])), w) |}.

(** A rendering that only tells the shape of the value. *)
Definition render (j : json) : string :=
  match j with
  | JsonUndefined => "undefined"
  | JsonNull => "null"
  | JsonBool true => "true"
  | JsonBool false => "false"
  | JsonNum n => pretty n
  | JsonStr s => s
  | JsonArr _ => "[...]"
  | JsonObj _ => "{...}"
  end.

(** A public channel with one human member. *)
Definition outside : World := mkWorld false (Some ["U1"]) None.

(** A private channel with one human member. *)
Definition outside_private : World := mkWorld true (Some ["U1"]) None.

(** A public channel that answers a join with an error. *)
Definition closed : World := mkWorld false (Some ["U1"]) (Some "is_archived").

(** A channel whose member lookup carries no member list. *)
Definition silent : World := mkWorld false None None.

Definition fresh (w : World) : State World := mkState w [].

End Workspace.

(** ** A scripted workspace

    A client that answers every call with the answer its script holds for
    that method, whatever the arguments; the world is trivial. *)

Module Script.
Import JS Mcp Slack.

Record Answers : Type := mkAnswers {
  on_auth : Promise (Response AuthTestBody);
  on_info : Promise (Response ConversationsInfoBody);
  on_members : Promise (Response ConversationsMembersBody);
  on_invite : Promise (Response unit);
  on_join : Promise (Response unit);
  on_post : Promise (Response ChatPostMessageBody);
  on_channels : Promise (Response ConversationsListBody);
  on_users : Promise (Response UsersListBody);
  on_history : Promise (Response ConversationsHistoryBody)
}.

Definition client (s : Answers) : WebClient unit :=
  {| auth_test := fun w => (on_auth s, w);
     conversations_info := fun c w => (on_info s, w);
     conversations_members := fun c w => (on_members s, w);
     conversations_invite := fun c u w => (on_invite s, w);
     conversations_join := fun c w => (on_join s, w);
     chat_postMessage := fun c t w => (on_post s, w);
     conversations_list := fun l w => (on_channels s, w);
     users_list := fun l w => (on_users s, w);
     conversations_history := fun c l w => (on_history s, w) |}.

Definition yes {T} (b : T) : Promise (Response T) :=
  Resolved (mkResponse true None b).

Definition no {T} (e : string) (b : T) : Promise (Response T) :=
  Resolved (mkResponse false (Some e) b).

(** A workspace where everything works: the bot ["UBOT"] is a member of a
    public channel, a post is answered with a timestamp, the history holds
    two messages, and the lists hold a nameless channel and a nameless user
    beside the named ones. *)
Definition healthy : Answers :=
  {| on_auth := yes (mkAuthTestBody (Some "UBOT"));
     on_info := yes (mkConversationsInfoBody
                       (Some (mkChannel (Some "C1") (Some "general") (Some false) None)));
     on_members := yes (mkConversationsMembersBody (Some ["U1"; "UBOT"]));
     on_invite := yes ();
     on_join := yes ();
     on_post := yes (mkChatPostMessageBody (Some "1700000000.000100") (Some "C1"));
     on_channels := yes (mkConversationsListBody
                       (Some [mkChannel (Some "C1") (Some "general") None (Some 2%Z);
                              mkChannel (Some "C2") None (Some true) None;
                              mkChannel None (Some "ghost") None None]));
     on_users := yes (mkUsersListBody
                       (Some [mkMember (Some "U1") (Some "ann") (Some "Ann") (Some false);
                              mkMember (Some "U2") (Some "") None None]));
     on_history := yes (mkConversationsHistoryBody
                       (Some [mkMessage (Some "latest") (Some "U1") (Some "2.0") None;
                              mkMessage (Some "older") (Some "U1") (Some "1.0") None])) |}.

(** The token is refused. *)
Definition revoked : Answers :=
  {| on_auth := no "invalid_auth" (mkAuthTestBody None);
     on_info := on_info healthy;
     on_members := on_members healthy;
     on_invite := on_invite healthy;
     on_join := on_join healthy;
     on_post := on_post healthy;
     on_channels := on_channels healthy;
     on_users := on_users healthy;
     on_history := on_history healthy |}.

(** The bot is not a member, and the channel lookup carries no channel. *)
Definition faceless : Answers :=
  {| on_auth := on_auth healthy;
     on_info := yes (mkConversationsInfoBody None);
     on_members := yes (mkConversationsMembersBody (Some ["U1"]));
     on_invite := on_invite healthy;
     on_join := on_join healthy;
     on_post := on_post healthy;
     on_channels := on_channels healthy;
     on_users := on_users healthy;
     on_history := on_history healthy |}.

(** A post is answered ok, but without a timestamp; the history is empty. *)
Definition mute : Answers :=
  {| on_auth := on_auth healthy;
     on_info := on_info healthy;
     on_members := on_members healthy;
     on_invite := on_invite healthy;
     on_join := on_join healthy;
     on_post := yes (mkChatPostMessageBody None (Some "C1"));
     on_channels := on_channels healthy;
     on_users := on_users healthy;
     on_history := yes (mkConversationsHistoryBody (Some [])) |}.

Definition start : State unit := mkState () [].

End Script.

(** * Properties *)

(** ** The store *)

Module MemoryStoreFacts.
Import JS Mcp Effect MemoryStore.

Lemma store_set_run key value (store : Store) :
  store_set key value store = (Success (), <[key := value]> store).
Proof. reflexivity. Qed.

Lemma store_get_absent key (store : Store) :
  store !! key = None ->
  store_get key store = (Failure (Die (key_not_found key)), store).
Proof.
  intros Hnone. unfold store_get, sync. by rewrite Hnone.
Qed.

Lemma store_get_present key value (store : Store) :
  store !! key = Some value -> value <> JUndefined ->
  store_get key store = (Success value, store).
Proof.
  intros Hsome Hdef. unfold store_get, sync. rewrite Hsome. simpl.
  by case_decide.
Qed.

Lemma store_delete_absent key (store : Store) :
  store !! key = None ->
  store_delete key store = (Failure (Die (key_not_found key)), store).
Proof.
  intros Hnone. unfold store_delete, sync.
  rewrite bool_decide_eq_false_2; [done|].
  rewrite Hnone. by intros [? ?].
Qed.

Lemma store_delete_present key (store : Store) :
  is_Some (store !! key) ->
  store_delete key store = (Success (), delete key store).
Proof.
  intros Hsome. unfold store_delete, sync.
  by rewrite bool_decide_eq_true_2.
Qed.

(** After a delete, successful or not, the key is absent. *)
Lemma store_delete_gone key (store : Store) :
  (store_delete key store).2 !! key = None.
Proof.
  destruct (store !! key) as [value|] eqn:Hkey.
  - rewrite store_delete_present by eauto. apply lookup_delete_eq.
  - by rewrite store_delete_absent.
Qed.

(** In a store of string keys no two keys share a property name, and the
    record [list] builds has each entry under its key. *)
Lemma fromEntries_lookup (store : Store) (k : string) value :
  string_keys store ->
  store !! JStr k = Some value ->
  fromEntries store !! k = Some value.
Proof.
  intros Hkeys Hk. unfold fromEntries.
  apply elem_of_list_to_map_1.
  - rewrite <- list_fmap_compose.
    apply (NoDup_fmap_2_strong _).
    + intros [k1 v1] [k2 v2] H1 H2 Heq. simpl in Heq.
      apply elem_of_map_to_list in H1, H2.
      destruct (Hkeys _ _ H1) as [s1 ->], (Hkeys _ _ H2) as [s2 ->].
      simpl in Heq. subst s2.
      rewrite H1 in H2. by injection H2 as ->.
    + apply NoDup_map_to_list.
  - apply list_elem_of_fmap. exists (JStr k, value). split; [done|].
    by apply elem_of_map_to_list.
Qed.

Lemma string_keys_insert (store : Store) (k : string) value :
  string_keys store -> string_keys (<[JStr k := value]> store).
Proof.
  intros Hkeys. apply map_Forall_insert_2; [by eexists | done].
Qed.

(** C7.  On a key that is absent from the store, whatever else the store
    holds and also when it is empty, [get] and [delete] both fail with the
    key-not-found error and leave the store as it is; on a key that is
    present, [delete] succeeds and the key is absent afterwards.  The error
    is the [McpError] the source throws for a missing key, with code
    [InvalidRequest] and a message that says the key was not found.  Keys
    are strings, as the methods declare them. *)
Theorem absent_key_not_found (store : Store) (key : string) :
  let not_found :=
    {| code := InvalidRequest;
       mcp_message := "キーが見つかりません: " +:+ key |} in
  (store !! JStr key = None ->
   store_get (JStr key) store = (Failure (Die not_found), store)
   /\ store_delete (JStr key) store = (Failure (Die not_found), store))
  /\ (is_Some (store !! JStr key) ->
      store_delete (JStr key) store = (Success (), delete (JStr key) store)
      /\ delete (JStr key) store !! JStr key = None).
Proof.
  intros not_found. split.
  - intros Habsent.
    split; [by apply store_get_absent | by apply store_delete_absent].
  - intros Hpresent.
    split; [by apply store_delete_present | apply lookup_delete_eq].
Qed.

(** On the empty store, on a store that holds another key, and on a store
    that holds the key. *)
Lemma absent_key_not_found_witness :
  (store_get (JStr "missing") ∅
   = (Failure (Die {| code := InvalidRequest;
                      mcp_message := "キーが見つかりません: missing" |}), ∅)
   /\ store_delete (JStr "missing") ∅
      = (Failure (Die {| code := InvalidRequest;
                         mcp_message := "キーが見つかりません: missing" |}), ∅))
  /\ (store_get (JStr "missing") {[ JStr "a" := JStr "1" ]}
      = (Failure (Die {| code := InvalidRequest;
                         mcp_message := "キーが見つかりません: missing" |}),
         {[ JStr "a" := JStr "1" ]})
      /\ store_delete (JStr "missing") {[ JStr "a" := JStr "1" ]}
         = (Failure (Die {| code := InvalidRequest;
                            mcp_message := "キーが見つかりません: missing" |}),
            {[ JStr "a" := JStr "1" ]}))
  /\ (store_delete (JStr "a") {[ JStr "a" := JStr "1" ]}
      = (Success (), delete (JStr "a") {[ JStr "a" := JStr "1" ]})
      /\ delete (JStr "a") ({[ JStr "a" := JStr "1" ]} : Store) !! JStr "a" = None).
Proof.
  split; [|split].
  - refine (proj1 (absent_key_not_found ∅ "missing") _). reflexivity.
  - refine (proj1 (absent_key_not_found {[ JStr "a" := JStr "1" ]} "missing") _).
    reflexivity.
  - refine (proj2 (absent_key_not_found {[ JStr "a" := JStr "1" ]} "a") _).
    eexists. reflexivity.
Defined.

(** C8.  For strings [k] and [v]: a [get] of [k] after [set k v] returns [v];
    a [get] of [k] after [delete k] fails with the key-not-found error; and
    the record [list] returns after [set k v] has [v] under [k].  The last
    part is for a store whose keys are strings, as its declared type says. *)
Theorem store_round_trip (store : Store) (k v : string) :
  string_keys store ->
  store_get (JStr k) (store_set (JStr k) (JStr v) store).2
  = (Success (JStr v), <[JStr k := JStr v]> store)
  /\ store_get (JStr k) (store_delete (JStr k) store).2
     = (Failure (Die {| code := InvalidRequest;
                        mcp_message := "キーが見つかりません: " +:+ k |}),
        (store_delete (JStr k) store).2)
  /\ exists record,
       store_list (store_set (JStr k) (JStr v) store).2
       = (Success record, <[JStr k := JStr v]> store)
       /\ record !! k = Some (JStr v).
Proof.
  intros Hkeys. rewrite store_set_run. simpl. repeat split.
  - apply store_get_present; [apply lookup_insert_eq | done].
  - apply (store_get_absent (JStr k)), store_delete_gone.
  - eexists. split; [reflexivity|].
    apply fromEntries_lookup; [by apply string_keys_insert | apply lookup_insert_eq].
Qed.

Lemma store_round_trip_witness :
  store_get (JStr "a") (store_set (JStr "a") (JStr "1") {[ JStr "b" := JStr "2" ]}).2
  = (Success (JStr "1"), <[JStr "a" := JStr "1"]> {[ JStr "b" := JStr "2" ]}).
Proof.
  refine (proj1 (store_round_trip {[ JStr "b" := JStr "2" ]} "a" "1" _)).
  apply map_Forall_singleton. by eexists.
Defined.

End MemoryStoreFacts.

(** ** Channel access *)

Module SlackFacts.
Import JS Mcp Zod Effect Slack.

Ltac run :=
  unfold sendMessage, getLatestMessage, ensureChannelAccess, Effect.bind,
    tryPromise, attempt, handleSlackResponse, succeed, die, sleep;
  simpl.

Section Reconcile.

Context {W : Type}.
Variable api : WebClient W.
Variable channelId : string.
Variable l : list Call.

(** The identity check succeeds and names the bot. *)
Variables (w0 w1 : W) (a : Response AuthTestBody) (bot : string).
Hypothesis auth_resolved : auth_test api w0 = (Resolved a, w1).
Hypothesis auth_ok : ok a = true.
Hypothesis auth_bot : user_id (body a) = Some bot.
Hypothesis bot_nonempty : bot <> "".

(** The channel lookup and the member lookup succeed. *)
Variables (w2 w3 : W).
Variable i : Response ConversationsInfoBody.
Variable m : Response ConversationsMembersBody.
Hypothesis info_resolved : conversations_info api channelId w1 = (Resolved i, w2).
Hypothesis info_ok : ok i = true.
Hypothesis members_resolved : conversations_members api channelId w2 = (Resolved m, w3).
Hypothesis members_ok : ok m = true.

Ltac inspect :=
  run; rewrite auth_resolved; simpl; rewrite auth_ok; simpl;
  rewrite auth_bot; simpl;
  destruct (String.eqb_spec bot "") as [->|_]; [done|]; simpl;
  rewrite info_resolved; simpl; rewrite info_ok; simpl;
  rewrite members_resolved; simpl; rewrite members_ok; simpl;
  rewrite <- ?app_assoc; simpl.

(** The state the inspection leaves. *)
Local Abbreviation inspected :=
  (mkState w3 (l ++ [AuthTest; ConversationsInfo channelId;
                     ConversationsMembers channelId])).

Lemma ensure_no_member_list :
  members (body m) = None ->
  ensureChannelAccess api channelId (mkState w0 l) = (Success (), inspected).
Proof. intros Hnone. inspect. by rewrite Hnone. Qed.

Lemma ensure_member ids :
  members (body m) = Some ids -> bot ∈ ids ->
  ensureChannelAccess api channelId (mkState w0 l) = (Success (), inspected).
Proof.
  intros Hids Hin. inspect. rewrite Hids.
  by rewrite bool_decide_eq_true_2.
Qed.

Lemma ensure_no_channel ids :
  members (body m) = Some ids -> bot ∉ ids -> channel (body i) = None ->
  ensureChannelAccess api channelId (mkState w0 l)
  = (Failure (Die (mkSlackError "Channel information not found")), inspected).
Proof.
  intros Hids Hout Hch. inspect. rewrite Hids.
  rewrite bool_decide_eq_false_2 by done. simpl. by rewrite Hch.
Qed.

(** The bot is absent from the member list, the channel is known, and the
    join or invite settles as [p]. *)
Variables (ids : list string) (ch : Channel) (p : Promise (Response unit)) (w4 : W).
Hypothesis members_listed : members (body m) = Some ids.
Hypothesis bot_absent : bot ∉ ids.
Hypothesis channel_known : channel (body i) = Some ch.
Hypothesis join_settled :
  (if truthy_bool (is_private ch)
   then conversations_invite api channelId bot
   else conversations_join api channelId) w3 = (p, w4).

Local Abbreviation request :=
  (if truthy_bool (is_private ch)
   then ConversationsInvite channelId bot
   else ConversationsJoin channelId).

Lemma ensure_join :
  ensureChannelAccess api channelId (mkState w0 l)
  = if failed p
    then (Failure (fault (fun e => mkSlackError ("Join channel failed: " +:+ e)) p),
          mkState w4 (l ++ [AuthTest; ConversationsInfo channelId;
                            ConversationsMembers channelId; request]))
    else (Success (),
          mkState w4 (l ++ [AuthTest; ConversationsInfo channelId;
                            ConversationsMembers channelId; request;
                            Sleep 2000])).
Proof.
  inspect. rewrite members_listed.
  rewrite bool_decide_eq_false_2 by done. simpl. rewrite channel_known.
  revert join_settled.
  destruct (truthy_bool (is_private ch)); simpl; intros ->;
    destruct p as [[[] err []]|e]; simpl; rewrite <- ?app_assoc; reflexivity.
Qed.

End Reconcile.

Section InspectionFails.

Context {W : Type}.
Variable api : WebClient W.
Variable channelId : string.
Variable l : list Call.

Variables (w0 w1 : W) (a : Response AuthTestBody).
Hypothesis auth_resolved : auth_test api w0 = (Resolved a, w1).
Hypothesis auth_ok : ok a = true.
Hypothesis auth_bot : truthy_str (user_id (body a)) = true.

(** The channel lookup settles as [pi], the member lookup (if it is
    reached) as [pm], and one of them failed. *)
Variables (w2 w3 : W).
Variable pi : Promise (Response ConversationsInfoBody).
Variable pm : Promise (Response ConversationsMembersBody).
Hypothesis info_settled : conversations_info api channelId w1 = (pi, w2).
Hypothesis members_settled : conversations_members api channelId w2 = (pm, w3).
Hypothesis inspection_failed : failed pi || failed pm = true.

Lemma ensure_inspection_failed :
  ensureChannelAccess api channelId (mkState w0 l)
  = if failed pi
    then (Failure (fault (fun e => mkSlackError ("Channel info failed: " +:+ e)) pi),
          mkState w2 (l ++ [AuthTest; ConversationsInfo channelId]))
    else (Failure (fault (fun e => mkSlackError ("Get members failed: " +:+ e)) pm),
          mkState w3 (l ++ [AuthTest; ConversationsInfo channelId;
                            ConversationsMembers channelId])).
Proof.
  run. rewrite auth_resolved. simpl. rewrite auth_ok. simpl.
  rewrite auth_bot. simpl. rewrite info_settled.
  destruct pi as [[[] erri bi]|ei]; simpl in *;
    rewrite <- ?app_assoc; simpl; try reflexivity.
  rewrite members_settled.
  destruct pm as [[[] errm bm]|em]; simpl in *;
    rewrite <- ?app_assoc; simpl; try reflexivity.
  discriminate.
Qed.

End InspectionFails.

Section Containment.

Context {W : Type}.
Variable api : WebClient W.
Variable JSON_stringify : json -> string.

(** The entries [ensureChannelAccess] adds to the log, by its exit. *)
Lemma ensure_shape channelId (st : State W) :
  exists added,
    log (ensureChannelAccess api channelId st).2 = log st ++ added /\
    match (ensureChannelAccess api channelId st).1 with
    | Success _ =>
        added = [AuthTest; ConversationsInfo channelId; ConversationsMembers channelId]
        \/ exists j, is_join j = true /\
             added = [AuthTest; ConversationsInfo channelId;
                      ConversationsMembers channelId; j; Sleep 2000]
    | Failure _ =>
        added `prefix_of`
          [AuthTest; ConversationsInfo channelId; ConversationsMembers channelId]
        \/ exists j, is_join j = true /\
             added = [AuthTest; ConversationsInfo channelId;
                      ConversationsMembers channelId; j]
    end.
Proof.
  run.
  repeat (case_match; simpl in *; simplify_eq);
    rewrite <- ?app_assoc; simpl;
    eexists; (split; [reflexivity|]).
  all: try (left; reflexivity).
  all: try (left; by eexists).
  all: try (right; eexists; split; [|reflexivity]; reflexivity).
Qed.

(** A failed reconciliation is the failure of the operation it guards, and
    the operation's own call is not issued. *)
Lemma sendMessage_contained args (st st' : State W) cause :
  ensureChannelAccess api (send_channel args) st = (Failure cause, st') ->
  sendMessage api args st = (Failure cause, st').
Proof. intros Hfail. unfold sendMessage, Effect.bind. by rewrite Hfail. Qed.

Lemma getLatestMessage_contained args (st st' : State W) cause :
  ensureChannelAccess api (latest_channel args) st = (Failure cause, st') ->
  getLatestMessage api args st = (Failure cause, st').
Proof. intros Hfail. unfold getLatestMessage, Effect.bind. by rewrite Hfail. Qed.

(** After a successful reconciliation the send is the next call. *)
Lemma sendMessage_proceeds args (st st' : State W) :
  ensureChannelAccess api (send_channel args) st = (Success (), st') ->
  log (sendMessage api args st).2
  = log st' ++ [ChatPostMessage (send_channel args) (send_text args)].
Proof.
  intros Hok. unfold sendMessage, Effect.bind at 1. rewrite Hok.
  run. repeat (case_match; simpl in *; simplify_eq); reflexivity.
Qed.

Lemma getLatestMessage_proceeds args (st st' : State W) :
  ensureChannelAccess api (latest_channel args) st = (Success (), st') ->
  log (getLatestMessage api args st).2
  = log st' ++ [ConversationsHistory (latest_channel args) 1].
Proof.
  intros Hok. unfold getLatestMessage, Effect.bind at 1. rewrite Hok.
  run. repeat (case_match; simpl in *; simplify_eq); reflexivity.
Qed.

(** Whatever the workspace answers, what a send adds to the log is an
    initial part of one of two sequences: the one without a join, or the one
    with a join, the settle delay, and then the send. *)
Lemma sendMessage_shape args (st : State W) :
  exists added,
    log (sendMessage api args st).2 = log st ++ added /\
    (added `prefix_of`
       [AuthTest; ConversationsInfo (send_channel args);
        ConversationsMembers (send_channel args);
        ChatPostMessage (send_channel args) (send_text args)]
     \/ exists j, is_join j = true /\
          added `prefix_of`
            [AuthTest; ConversationsInfo (send_channel args);
             ConversationsMembers (send_channel args); j; Sleep 2000;
             ChatPostMessage (send_channel args) (send_text args)]).
Proof.
  destruct (ensure_shape (send_channel args) st) as (added & Hlog & Hshape).
  destruct (ensureChannelAccess api (send_channel args) st)
    as [[[]|cause] st'] eqn:Hrun; simpl in *.
  - rewrite (sendMessage_proceeds _ _ _ Hrun), Hlog, <- app_assoc.
    eexists; split; [reflexivity|].
    destruct Hshape as [->|(j & Hj & ->)]; [left|right; exists j; split]; done.
  - rewrite (sendMessage_contained _ _ _ _ Hrun). simpl.
    exists added; split; [done|].
    destruct Hshape as [[rest Hrest]|(j & Hj & ->)].
    + left. exists (rest ++ [ChatPostMessage (send_channel args) (send_text args)]).
      rewrite app_assoc, <- Hrest. reflexivity.
    + right. exists j. split; [done|]. by eexists.
Qed.

End Containment.

(** *** The order of a send into a channel the bot has to join *)

(** C1.  A send to a channel whose member list does not hold the bot runs the
    identity check, the channel lookup and member lookup, the join (an invite
    when the channel is private), the settle delay of 2000 ms and the send,
    in that order: once the join has succeeded the reconciliation ends with
    the delay, and the send is the next call after it.  Whatever the
    workspace answers, what a send adds to the log is an initial part of that
    sequence or of the sequence without a join, so that no send comes
    between a join and the delay or before them. *)
Theorem send_follows_settle_wait {W} (api : WebClient W)
    (channelId text : string) (l : list Call) (w0 w1 w2 w3 w4 : W)
    (a : Response AuthTestBody) (bot : string)
    (i : Response ConversationsInfoBody) (ch : Channel)
    (m : Response ConversationsMembersBody) (ids : list string)
    (r : Response unit) :
  auth_test api w0 = (Resolved a, w1) -> ok a = true ->
  user_id (body a) = Some bot -> bot <> "" ->
  conversations_info api channelId w1 = (Resolved i, w2) -> ok i = true ->
  channel (body i) = Some ch ->
  conversations_members api channelId w2 = (Resolved m, w3) -> ok m = true ->
  members (body m) = Some ids -> bot ∉ ids ->
  (if truthy_bool (is_private ch)
   then conversations_invite api channelId bot
   else conversations_join api channelId) w3 = (Resolved r, w4) ->
  ok r = true ->
  let request :=
    if truthy_bool (is_private ch)
    then ConversationsInvite channelId bot
    else ConversationsJoin channelId in
  ensureChannelAccess api channelId (mkState w0 l)
  = (Success (),
     mkState w4 (l ++ [AuthTest; ConversationsInfo channelId;
                       ConversationsMembers channelId; request; Sleep 2000]))
  /\ log (sendMessage api (mkSendMessageArgs channelId text) (mkState w0 l)).2
     = l ++ [AuthTest; ConversationsInfo channelId; ConversationsMembers channelId;
             request; Sleep 2000; ChatPostMessage channelId text]
  /\ forall args (st : State W),
       exists added,
         log (sendMessage api args st).2 = log st ++ added /\
         (added `prefix_of`
            [AuthTest; ConversationsInfo (send_channel args);
             ConversationsMembers (send_channel args);
             ChatPostMessage (send_channel args) (send_text args)]
          \/ exists j, is_join j = true /\
               added `prefix_of`
                 [AuthTest; ConversationsInfo (send_channel args);
                  ConversationsMembers (send_channel args); j; Sleep 2000;
                  ChatPostMessage (send_channel args) (send_text args)]).
Proof.
  intros Ha Hoka Hbot Hne Hi Hoki Hch Hm Hokm Hids Hout Hjoin Hokr request.
  pose proof (ensure_join api channelId l w0 w1 a bot Ha Hoka Hbot Hne
                w2 w3 i m Hi Hoki Hm Hokm ids ch (Resolved r) w4
                Hids Hout Hch Hjoin) as Hrun.
  simpl in Hrun. rewrite Hokr in Hrun. simpl in Hrun.
  split; [exact Hrun|]. split.
  - rewrite (sendMessage_proceeds api (mkSendMessageArgs channelId text) _ _ Hrun).
    simpl. by rewrite <- app_assoc.
  - apply sendMessage_shape.
Qed.

Lemma send_follows_settle_wait_witness :
  log (sendMessage Workspace.client (mkSendMessageArgs "C1" "hi")
         (Workspace.fresh Workspace.outside)).2
  = [AuthTest; ConversationsInfo "C1"; ConversationsMembers "C1";
     ConversationsJoin "C1"; Sleep 2000; ChatPostMessage "C1" "hi"].
Proof.
  refine (proj1 (proj2 (send_follows_settle_wait Workspace.client "C1" "hi" []
    Workspace.outside Workspace.outside Workspace.outside Workspace.outside
    (Workspace.mkWorld false (Some ["U1"; "UBOT"]) None)
    (mkResponse true None (mkAuthTestBody (Some "UBOT"))) "UBOT"
    (mkResponse true None
       (mkConversationsInfoBody (Some (Workspace.the_channel Workspace.outside))))
    (Workspace.the_channel Workspace.outside)
    (mkResponse true None (mkConversationsMembersBody (Some ["U1"])))
    ["U1"] (mkResponse true None ())
    _ _ _ _ _ _ _ _ _ _ _ _ _))); try reflexivity.
  - discriminate.
  - apply (bool_decide_unpack _). vm_compute. exact I.
Defined.

(** *** Failure of the inspection *)

(** C2.  When the channel lookup or the member lookup fails (the promise is
    rejected, or the response is not ok, as for a channel id that does not
    exist), [send_message] and [get_latest_message] answer with an error
    result carrying the failure of the reconciliation, and the log ends
    with the failed lookup: neither [chat.postMessage] nor
    [conversations.history] is called.  This holds for every arguments
    mapping the tool accepts for that channel: one with a string under
    [text] for the send, any one for the read.  The access error is the
    failure the reconciliation ends with; the source has one error class,
    [SlackError], and the result carries its message. *)
Theorem inspection_failure_contained {W} (api : WebClient W)
    (JSON_stringify : json -> string) (channelId : string)
    (l : list Call) (w0 w1 w2 w3 : W)
    (a : Response AuthTestBody)
    (pi : Promise (Response ConversationsInfoBody))
    (pm : Promise (Response ConversationsMembersBody)) :
  auth_test api w0 = (Resolved a, w1) -> ok a = true ->
  truthy_str (user_id (body a)) = true ->
  conversations_info api channelId w1 = (pi, w2) ->
  conversations_members api channelId w2 = (pm, w3) ->
  failed pi || failed pm = true ->
  let cause :=
    if failed pi
    then fault (fun e => mkSlackError ("Channel info failed: " +:+ e)) pi
    else fault (fun e => mkSlackError ("Get members failed: " +:+ e)) pm in
  let st' :=
    if failed pi
    then mkState w2 (l ++ [AuthTest; ConversationsInfo channelId])
    else mkState w3 (l ++ [AuthTest; ConversationsInfo channelId;
                           ConversationsMembers channelId]) in
  let response :=
    {| content := [ {| type := "text";
                       text := "Slack API error: " +:+ message (squash cause) |} ];
       isError := Some true |} in
  ensureChannelAccess api channelId (mkState w0 l) = (Failure cause, st')
  /\ (forall (sending : gmap string jsval) (text : string),
        sending !! "channel" = Some (JStr channelId) ->
        sending !! "text" = Some (JStr text) ->
        callTool api JSON_stringify "send_message" (Some sending) (mkState w0 l)
        = (Normal response, st'))
  /\ (forall reading : gmap string jsval,
        reading !! "channel" = Some (JStr channelId) ->
        callTool api JSON_stringify "get_latest_message" (Some reading) (mkState w0 l)
        = (Normal response, st'))
  /\ List.filter is_guarded (log st') = List.filter is_guarded l.
Proof.
  intros Ha Hoka Hbot Hi Hm Hfail cause st' response.
  assert (ensureChannelAccess api channelId (mkState w0 l) = (Failure cause, st'))
    as Hrun.
  { rewrite (ensure_inspection_failed api channelId l w0 w1 a Ha Hoka Hbot
               w2 w3 pi pm Hi Hm Hfail).
    subst cause st'. by destruct (failed pi). }
  split; [exact Hrun|]. split; [|split].
  - intros sending text Hc Ht.
    unfold callTool, SendMessageSchema_parse, prop. rewrite Hc, Ht. simpl.
    unfold handleResult.
    by rewrite (sendMessage_contained api (mkSendMessageArgs channelId text) _ _ _ Hrun).
  - intros reading Hc.
    unfold callTool, GetLatestMessageSchema_parse, prop. rewrite Hc. simpl.
    unfold handleResult.
    by rewrite (getLatestMessage_contained api (mkGetLatestMessageArgs channelId) _ _ _ Hrun).
  - subst st'. destruct (failed pi); simpl;
      rewrite List.filter_app; simpl; apply app_nil_r.
Qed.

(** A send and a read into a channel that does not exist, the read called
    with its channel alone. *)
Lemma inspection_failure_contained_witness :
  callTool Workspace.client Workspace.render "send_message"
    (Some {[ "channel" := JStr "C9"; "text" := JStr "hi" ]})
    (Workspace.fresh Workspace.outside)
  = (Normal {| content := [ {| type := "text";
                               text := "Slack API error: channel_not_found" |} ];
               isError := Some true |},
     mkState Workspace.outside [AuthTest; ConversationsInfo "C9"])
  /\ callTool Workspace.client Workspace.render "get_latest_message"
       (Some {[ "channel" := JStr "C9" ]})
       (Workspace.fresh Workspace.outside)
     = (Normal {| content := [ {| type := "text";
                                  text := "Slack API error: channel_not_found" |} ];
                  isError := Some true |},
        mkState Workspace.outside [AuthTest; ConversationsInfo "C9"]).
Proof.
  pose proof (inspection_failure_contained Workspace.client Workspace.render
    "C9" [] Workspace.outside Workspace.outside Workspace.outside Workspace.outside
    (mkResponse true None (mkAuthTestBody (Some "UBOT")))
    (Workspace.refuse "channel_not_found" (mkConversationsInfoBody None))
    (Workspace.answer (mkConversationsMembersBody (Some ["U1"])))
    eq_refl eq_refl eq_refl eq_refl eq_refl eq_refl) as (_ & Hsend & Hread & _).
  split.
  - exact (Hsend {[ "channel" := JStr "C9"; "text" := JStr "hi" ]} "hi"
             eq_refl eq_refl).
  - exact (Hread {[ "channel" := JStr "C9" ]} eq_refl).
Defined.

(** *** A bot that is already a member *)

(** C3.  When the member list the inspection reads holds the bot's id, the
    reconciliation succeeds right after the three inspection calls: it issues
    no join and no invite (and waits for nothing), and the send or the read
    is the next call.  This holds from any state, hence also for a second
    invocation that follows a first one. *)
Theorem member_needs_no_join {W} (api : WebClient W)
    (channelId text : string) (l : list Call) (w0 w1 w2 w3 : W)
    (a : Response AuthTestBody) (bot : string)
    (i : Response ConversationsInfoBody)
    (m : Response ConversationsMembersBody) (ids : list string) :
  auth_test api w0 = (Resolved a, w1) -> ok a = true ->
  user_id (body a) = Some bot -> bot <> "" ->
  conversations_info api channelId w1 = (Resolved i, w2) -> ok i = true ->
  conversations_members api channelId w2 = (Resolved m, w3) -> ok m = true ->
  members (body m) = Some ids -> bot ∈ ids ->
  ensureChannelAccess api channelId (mkState w0 l)
  = (Success (),
     mkState w3 (l ++ [AuthTest; ConversationsInfo channelId;
                       ConversationsMembers channelId]))
  /\ log (sendMessage api (mkSendMessageArgs channelId text) (mkState w0 l)).2
     = l ++ [AuthTest; ConversationsInfo channelId; ConversationsMembers channelId;
             ChatPostMessage channelId text]
  /\ log (getLatestMessage api (mkGetLatestMessageArgs channelId) (mkState w0 l)).2
     = l ++ [AuthTest; ConversationsInfo channelId; ConversationsMembers channelId;
             ConversationsHistory channelId 1]
  /\ List.filter is_join
       (log (sendMessage api (mkSendMessageArgs channelId text) (mkState w0 l)).2)
     = List.filter is_join l
  /\ List.filter is_join
       (log (getLatestMessage api (mkGetLatestMessageArgs channelId) (mkState w0 l)).2)
     = List.filter is_join l.
Proof.
  intros Ha Hoka Hbot Hne Hi Hoki Hm Hokm Hids Hin.
  pose proof (ensure_member api channelId l w0 w1 a bot Ha Hoka Hbot Hne
                w2 w3 i m Hi Hoki Hm Hokm ids Hids Hin) as Hrun.
  pose proof (sendMessage_proceeds api (mkSendMessageArgs channelId text) _ _ Hrun)
    as Hsend.
  pose proof (getLatestMessage_proceeds api (mkGetLatestMessageArgs channelId) _ _ Hrun)
    as Hread.
  simpl in Hsend, Hread. rewrite <- app_assoc in Hsend, Hread. simpl in Hsend, Hread.
  split; [exact Hrun|]. split; [exact Hsend|]. split; [exact Hread|].
  rewrite Hsend, Hread, !List.filter_app. simpl. by rewrite app_nil_r.
Qed.

(** The second of two sends in a row: the first one joined the channel, the
    second one finds the bot among the members. *)
Lemma member_needs_no_join_witness :
  let first := (sendMessage Workspace.client (mkSendMessageArgs "C1" "one")
                  (Workspace.fresh Workspace.outside)).2 in
  log first
  = [AuthTest; ConversationsInfo "C1"; ConversationsMembers "C1";
     ConversationsJoin "C1"; Sleep 2000; ChatPostMessage "C1" "one"]
  /\ log (sendMessage Workspace.client (mkSendMessageArgs "C1" "two") first).2
     = log first ++ [AuthTest; ConversationsInfo "C1"; ConversationsMembers "C1";
                     ChatPostMessage "C1" "two"].
Proof.
  split; [reflexivity|].
  pose (joined := Workspace.mkWorld false (Some ["U1"; "UBOT"]) None).
  refine (proj1 (proj2 (member_needs_no_join Workspace.client "C1" "two"
    [AuthTest; ConversationsInfo "C1"; ConversationsMembers "C1";
     ConversationsJoin "C1"; Sleep 2000; ChatPostMessage "C1" "one"]
    joined joined joined joined
    (mkResponse true None (mkAuthTestBody (Some "UBOT"))) "UBOT"
    (mkResponse true None
       (mkConversationsInfoBody (Some (Workspace.the_channel joined))))
    (mkResponse true None (mkConversationsMembersBody (Some ["U1"; "UBOT"])))
    ["U1"; "UBOT"]
    _ _ _ _ _ _ _ _ _ _))); try reflexivity.
  - discriminate.
  - apply (bool_decide_unpack _). vm_compute. exact I.
Defined.

(** *** Joining *)

(** C4.  When the member list the inspection reads does not hold the bot's
    id and the channel lookup carried the channel, the reconciliation asks
    for an invite of the bot if the channel is private and for a join if it
    is not, as the call after the inspection.  If that call fails (rejected,
    or answered not ok) the reconciliation fails, with the [SlackError] of
    the call as its access error, and the request is the last call; if it
    succeeds the settle delay follows. *)
Theorem absent_bot_joins_or_is_invited {W} (api : WebClient W)
    (channelId : string) (l : list Call) (w0 w1 w2 w3 w4 : W)
    (a : Response AuthTestBody) (bot : string)
    (i : Response ConversationsInfoBody) (ch : Channel)
    (m : Response ConversationsMembersBody) (ids : list string)
    (p : Promise (Response unit)) :
  auth_test api w0 = (Resolved a, w1) -> ok a = true ->
  user_id (body a) = Some bot -> bot <> "" ->
  conversations_info api channelId w1 = (Resolved i, w2) -> ok i = true ->
  channel (body i) = Some ch ->
  conversations_members api channelId w2 = (Resolved m, w3) -> ok m = true ->
  members (body m) = Some ids -> bot ∉ ids ->
  (if truthy_bool (is_private ch)
   then conversations_invite api channelId bot
   else conversations_join api channelId) w3 = (p, w4) ->
  let request :=
    if truthy_bool (is_private ch)
    then ConversationsInvite channelId bot
    else ConversationsJoin channelId in
  ensureChannelAccess api channelId (mkState w0 l)
  = if failed p
    then (Failure (fault (fun e => mkSlackError ("Join channel failed: " +:+ e)) p),
          mkState w4 (l ++ [AuthTest; ConversationsInfo channelId;
                            ConversationsMembers channelId; request]))
    else (Success (),
          mkState w4 (l ++ [AuthTest; ConversationsInfo channelId;
                            ConversationsMembers channelId; request;
                            Sleep 2000])).
Proof.
  intros Ha Hoka Hbot Hne Hi Hoki Hch Hm Hokm Hids Hout Hjoin request.
  exact (ensure_join api channelId l w0 w1 a bot Ha Hoka Hbot Hne
           w2 w3 i m Hi Hoki Hm Hokm ids ch p w4 Hids Hout Hch Hjoin).
Qed.

(** A private channel: the bot is invited.  A public channel that answers
    the join with an error: the reconciliation fails with that error. *)
Lemma absent_bot_joins_or_is_invited_witness :
  ensureChannelAccess Workspace.client "C1" (Workspace.fresh Workspace.outside_private)
  = (Success (),
     mkState (Workspace.mkWorld true (Some ["U1"; "UBOT"]) None)
       [AuthTest; ConversationsInfo "C1"; ConversationsMembers "C1";
        ConversationsInvite "C1" "UBOT"; Sleep 2000])
  /\ ensureChannelAccess Workspace.client "C1" (Workspace.fresh Workspace.closed)
     = (Failure (Die (mkSlackError "is_archived")),
        mkState Workspace.closed
          [AuthTest; ConversationsInfo "C1"; ConversationsMembers "C1";
           ConversationsJoin "C1"]).
Proof.
  split.
  - refine (absent_bot_joins_or_is_invited Workspace.client "C1" []
      Workspace.outside_private Workspace.outside_private
      Workspace.outside_private Workspace.outside_private
      (Workspace.mkWorld true (Some ["U1"; "UBOT"]) None)
      (mkResponse true None (mkAuthTestBody (Some "UBOT"))) "UBOT"
      (mkResponse true None
         (mkConversationsInfoBody (Some (Workspace.the_channel Workspace.outside_private))))
      (Workspace.the_channel Workspace.outside_private)
      (mkResponse true None (mkConversationsMembersBody (Some ["U1"])))
      ["U1"] (Workspace.answer ())
      _ _ _ _ _ _ _ _ _ _ _ _); try reflexivity.
    + discriminate.
    + apply (bool_decide_unpack _). vm_compute. exact I.
  - refine (absent_bot_joins_or_is_invited Workspace.client "C1" []
      Workspace.closed Workspace.closed Workspace.closed Workspace.closed
      Workspace.closed
      (mkResponse true None (mkAuthTestBody (Some "UBOT"))) "UBOT"
      (mkResponse true None
         (mkConversationsInfoBody (Some (Workspace.the_channel Workspace.closed))))
      (Workspace.the_channel Workspace.closed)
      (mkResponse true None (mkConversationsMembersBody (Some ["U1"])))
      ["U1"] (Workspace.refuse "is_archived" ())
      _ _ _ _ _ _ _ _ _ _ _ _); try reflexivity.
    + discriminate.
    + apply (bool_decide_unpack _). vm_compute. exact I.
Defined.

(** *** A member lookup without a member list *)

(** C10.  When the member lookup succeeds and its response has no [members]
    field, the reconciliation succeeds right after the three inspection
    calls: no join, no invite, no settle delay, whoever is in the channel;
    the send is the next call. *)
Theorem missing_member_list_settles {W} (api : WebClient W)
    (channelId text : string) (l : list Call) (w0 w1 w2 w3 : W)
    (a : Response AuthTestBody) (bot : string)
    (i : Response ConversationsInfoBody)
    (m : Response ConversationsMembersBody) :
  auth_test api w0 = (Resolved a, w1) -> ok a = true ->
  user_id (body a) = Some bot -> bot <> "" ->
  conversations_info api channelId w1 = (Resolved i, w2) -> ok i = true ->
  conversations_members api channelId w2 = (Resolved m, w3) -> ok m = true ->
  members (body m) = None ->
  ensureChannelAccess api channelId (mkState w0 l)
  = (Success (),
     mkState w3 (l ++ [AuthTest; ConversationsInfo channelId;
                       ConversationsMembers channelId]))
  /\ log (sendMessage api (mkSendMessageArgs channelId text) (mkState w0 l)).2
     = l ++ [AuthTest; ConversationsInfo channelId; ConversationsMembers channelId;
             ChatPostMessage channelId text].
Proof.
  intros Ha Hoka Hbot Hne Hi Hoki Hm Hokm Hnone.
  pose proof (ensure_no_member_list api channelId l w0 w1 a bot Ha Hoka Hbot Hne
                w2 w3 i m Hi Hoki Hm Hokm Hnone) as Hrun.
  split; [exact Hrun|].
  rewrite (sendMessage_proceeds api (mkSendMessageArgs channelId text) _ _ Hrun).
  simpl. by rewrite <- app_assoc.
Qed.

Lemma missing_member_list_settles_witness :
  ensureChannelAccess Workspace.client "C1" (Workspace.fresh Workspace.silent)
  = (Success (),
     mkState Workspace.silent
       [AuthTest; ConversationsInfo "C1"; ConversationsMembers "C1"]).
Proof.
  refine (proj1 (missing_member_list_settles Workspace.client "C1" "hi" []
    Workspace.silent Workspace.silent Workspace.silent Workspace.silent
    (mkResponse true None (mkAuthTestBody (Some "UBOT"))) "UBOT"
    (mkResponse true None
       (mkConversationsInfoBody (Some (Workspace.the_channel Workspace.silent))))
    (mkResponse true None (mkConversationsMembersBody None))
    _ _ _ _ _ _ _ _ _)); try reflexivity.
  discriminate.
Defined.

End SlackFacts.

(** ** Dispatch *)

Module DispatchFacts.
Import JS Mcp Zod Effect.

(** C9.  A call whose name is none of the tools a server lists throws an
    [McpError] with code [MethodNotFound]; the store, the world and the log
    of outbound calls are as before.  This holds for both servers. *)
Theorem unknown_tool_method_not_found {W} (api : Slack.WebClient W)
    (JSON_stringify : json -> string) (store_tool slack_tool : string)
    (args : arguments) (store : MemoryStore.Store) (st : Slack.State W) :
  store_tool ∉ MemoryStore.tools -> slack_tool ∉ Slack.tools ->
  MemoryStore.callTool JSON_stringify store_tool args store
  = (Throw (MemoryStore.McpErr
              {| code := MethodNotFound;
                 mcp_message := "不明なツール: " +:+ store_tool |}), store)
  /\ Slack.callTool api JSON_stringify slack_tool args st
     = (Throw (Slack.McpErr
                 {| code := MethodNotFound;
                    mcp_message := "Unknown tool: " +:+ slack_tool |}), st).
Proof.
  unfold MemoryStore.tools, Slack.tools. intros Hstore Hslack.
  split.
  - unfold MemoryStore.callTool.
    repeat (case_decide; [subst; exfalso; apply Hstore; set_solver|]).
    reflexivity.
  - unfold Slack.callTool.
    repeat (case_decide; [subst; exfalso; apply Hslack; set_solver|]).
    reflexivity.
Qed.

Lemma unknown_tool_method_not_found_witness :
  MemoryStore.callTool Workspace.render "drop_all" None {[ JStr "a" := JStr "1" ]}
  = (Throw (MemoryStore.McpErr
              {| code := MethodNotFound; mcp_message := "不明なツール: drop_all" |}),
     {[ JStr "a" := JStr "1" ]})
  /\ Slack.callTool Workspace.client Workspace.render "delete_channel"
       (Some {[ "channel" := JStr "C1" ]}) (Workspace.fresh Workspace.outside)
     = (Throw (Slack.McpErr
                 {| code := MethodNotFound;
                    mcp_message := "Unknown tool: delete_channel" |}),
        Workspace.fresh Workspace.outside).
Proof.
  split.
  - refine (proj1 (unknown_tool_method_not_found Workspace.client Workspace.render
      "drop_all" "delete_channel" None {[ JStr "a" := JStr "1" ]}
      (Workspace.fresh Workspace.outside) _ _));
      apply (bool_decide_unpack _); vm_compute; exact I.
  - refine (proj2 (unknown_tool_method_not_found Workspace.client Workspace.render
      "drop_all" "delete_channel" (Some {[ "channel" := JStr "C1" ]}) ∅
      (Workspace.fresh Workspace.outside) _ _));
      apply (bool_decide_unpack _); vm_compute; exact I.
Defined.

(** *** Faults *)

(** C5 fails in the memory-store server: a fault raised inside the store
    operation is not caught by [handleEffect].  [get_value] on a missing key
    throws out of the call handler instead of returning a result. *)
Lemma store_fault_escapes :
  MemoryStore.callTool Workspace.render "get_value"
    (Some {[ "key" := JStr "missing" ]}) ∅
  = (Throw (MemoryStore.FiberFailure
              (Die {| code := InvalidRequest;
                      mcp_message := "キーが見つかりません: missing" |})), ∅)
  /\ ~ exists result store',
         MemoryStore.callTool Workspace.render "get_value"
           (Some {[ "key" := JStr "missing" ]}) ∅
         = (Normal result, store').
Proof.
  split; [reflexivity|].
  intros (result & store' & Hrun). vm_compute in Hrun. discriminate.
Qed.

(** C5, as the code has it.  In the slack server [handleResult] catches
    every fault of the effect it runs, a typed failure or a defect alike, and
    turns it into an error result whose text is ["Slack API error: "]
    followed by the fault's message; it never throws.  In the memory-store
    server [handleEffect] catches nothing: the failure of a failed effect
    is thrown out of the call handler, with its cause. *)
Theorem fault_at_the_boundary {W} (JSON_stringify : json -> string)
    {A} `{ToJson A} (effect : Effect (Slack.State W) Slack.SlackError A)
    (st st' : Slack.State W) (cause : Cause Slack.SlackError)
    {B} `{ToJson B} (store_effect : Effect MemoryStore.Store McpError B)
    (successMessage : option string)
    (store store' : MemoryStore.Store) (store_cause : Cause McpError) :
  effect st = (Failure cause, st') ->
  store_effect store = (Failure store_cause, store') ->
  Slack.handleResult JSON_stringify effect st
  = (Normal {| content :=
                 [ {| type := "text";
                      text := "Slack API error: "
                              +:+ Slack.message (squash cause) |} ];
               isError := Some true |}, st')
  /\ (forall (other : Effect (Slack.State W) Slack.SlackError A) s,
        exists result, (Slack.handleResult JSON_stringify other s).1 = Normal result)
  /\ MemoryStore.handleEffect JSON_stringify store_effect successMessage store
     = (Throw (MemoryStore.FiberFailure store_cause), store').
Proof.
  intros Hslack Hstore. repeat split.
  - unfold Slack.handleResult. by rewrite Hslack.
  - intros other s. unfold Slack.handleResult.
    destruct (other s) as [[result|c] s']; by eexists.
  - unfold MemoryStore.handleEffect, runSync, Effect.map, Effect.bind.
    by rewrite Hstore.
Qed.

Lemma fault_at_the_boundary_witness :
  Slack.handleResult Workspace.render
    (Slack.sendMessage Workspace.client (Slack.mkSendMessageArgs "C1" "hi"))
    (Workspace.fresh Workspace.closed)
  = (Normal {| content := [ {| type := "text";
                               text := "Slack API error: is_archived" |} ];
               isError := Some true |},
     Slack.mkState Workspace.closed
       [Slack.AuthTest; Slack.ConversationsInfo "C1";
        Slack.ConversationsMembers "C1"; Slack.ConversationsJoin "C1"])
  /\ MemoryStore.handleEffect Workspace.render
       (MemoryStore.store_get (JStr "missing")) None ∅
     = (Throw (MemoryStore.FiberFailure
                 (Die (MemoryStore.key_not_found (JStr "missing")))), ∅).
Proof.
  pose proof (fault_at_the_boundary Workspace.render
    (Slack.sendMessage Workspace.client (Slack.mkSendMessageArgs "C1" "hi"))
    (Workspace.fresh Workspace.closed)
    (Slack.mkState Workspace.closed
       [Slack.AuthTest; Slack.ConversationsInfo "C1";
        Slack.ConversationsMembers "C1"; Slack.ConversationsJoin "C1"])
    (Die (Slack.mkSlackError "is_archived"))
    (MemoryStore.store_get (JStr "missing")) None ∅ ∅
    (Die (MemoryStore.key_not_found (JStr "missing")))
    eq_refl eq_refl) as (Hslack & _ & Hstore).
  split; [exact Hslack | exact Hstore].
Defined.

(** *** Missing arguments *)




End DispatchFacts.

(** ** More on the store *)

Module MemoryStoreMore.
Import JS Mcp Effect MemoryStore.

Lemma get_absent key (store : Store) :
  store !! key = None ->
  store_get key store = (Failure (Die (key_not_found key)), store).
Proof. intros Hnone. unfold store_get, sync. by rewrite Hnone. Qed.

Lemma get_present key value (store : Store) :
  store !! key = Some value -> value <> JUndefined ->
  store_get key store = (Success value, store).
Proof.
  intros Hsome Hdef. unfold store_get, sync. rewrite Hsome. simpl.
  by case_decide.
Qed.

Lemma delete_run key (store : Store) :
  store_delete key store
  = match store !! key with
    | Some _ => (Success (), delete key store)
    | None => (Failure (Die (key_not_found key)), store)
    end.
Proof.
  unfold store_delete, sync. destruct (store !! key) as [value|] eqn:Hkey.
  - by rewrite bool_decide_eq_true_2.
  - rewrite bool_decide_eq_false_2; [done|]. by intros [? ?].
Qed.

(** The record of a store of string keys, property by property. *)
Lemma fromEntries_string_keys (store : Store) (k : string) :
  string_keys store -> fromEntries store !! k = store !! JStr k.
Proof.
  intros Hkeys. unfold fromEntries.
  destruct (store !! JStr k) as [value|] eqn:Hk.
  - apply elem_of_list_to_map_1.
    + rewrite <- list_fmap_compose.
      apply (NoDup_fmap_2_strong _).
      * intros [k1 v1] [k2 v2] H1 H2 Heq. simpl in Heq.
        apply elem_of_map_to_list in H1, H2.
        destruct (Hkeys _ _ H1) as [s1 ->], (Hkeys _ _ H2) as [s2 ->].
        simpl in Heq. subst s2.
        rewrite H1 in H2. by injection H2 as ->.
      * apply NoDup_map_to_list.
    + apply list_elem_of_fmap. exists (JStr k, value). split; [done|].
      by apply elem_of_map_to_list.
  - apply not_elem_of_list_to_map_1.
    rewrite <- list_fmap_compose. intros Hin.
    apply list_elem_of_fmap in Hin as ([key value] & Hname & Hin).
    apply elem_of_map_to_list in Hin. simpl in Hname.
    destruct (Hkeys _ _ Hin) as [s ->]. simpl in Hname. subst s.
    congruence.
Qed.

(** X1.  [set] overwrites silently: two [set]s of one key leave the store
    that the second one alone leaves, and a [get] returns the second
    value. *)
Theorem set_overwrites (store : Store) (key first second : jsval) :
  second <> JUndefined ->
  (store_set key first store).1 = Success ()
  /\ (store_set key second (store_set key first store).2).2
     = (store_set key second store).2
  /\ store_get key (store_set key second (store_set key first store).2).2
     = (Success second, <[key := second]> store).
Proof.
  intros Hdef. unfold store_set, sync. simpl.
  rewrite insert_insert_eq. repeat split.
  apply get_present; [apply lookup_insert_eq | done].
Qed.

Lemma set_overwrites_witness :
  store_get (JStr "a")
    (store_set (JStr "a") (JStr "2") (store_set (JStr "a") (JStr "1") ∅).2).2
  = (Success (JStr "2"), <[JStr "a" := JStr "2"]> ∅).
Proof.
  refine (proj2 (proj2 (set_overwrites ∅ (JStr "a") (JStr "1") (JStr "2") _))).
  discriminate.
Defined.

(** X2.  A [set] or a [delete] of one key does not change what a [get] of
    another key returns. *)
Theorem other_keys_untouched (store : Store) (key other value : jsval) :
  key <> other ->
  (store_get other (store_set key value store).2).1 = (store_get other store).1
  /\ (store_get other (store_delete key store).2).1 = (store_get other store).1.
Proof.
  intros Hne. split.
  - unfold store_get, store_set, sync. simpl.
    rewrite lookup_insert_ne by done.
    by destruct (decide (default JUndefined (store !! other) = JUndefined)).
  - rewrite delete_run. destruct (store !! key); [|done]. simpl.
    unfold store_get, sync. rewrite lookup_delete_ne by done.
    by destruct (decide (default JUndefined (store !! other) = JUndefined)).
Qed.

Lemma other_keys_untouched_witness :
  (store_get (JStr "b") (store_delete (JStr "a")
     {[ JStr "a" := JStr "1"; JStr "b" := JStr "2" ]}).2).1
  = (store_get (JStr "b") {[ JStr "a" := JStr "1"; JStr "b" := JStr "2" ]}).1.
Proof.
  refine (proj2 (other_keys_untouched
    {[ JStr "a" := JStr "1"; JStr "b" := JStr "2" ]}
    (JStr "a") (JStr "b") JUndefined _)).
  discriminate.
Defined.

(** X3.  A string key bound to [undefined] is in the store and yet cannot
    be read: [get] compares the value with [undefined] and fails as for a
    missing key, while [delete] asks the map whether it has the key and
    succeeds.  Through the handler: after a [set_value] with a string key
    and without [value], [get_value] of that key throws. *)
Theorem undefined_value_hides_key (JSON_stringify : json -> string)
    (store : Store) (o : gmap string jsval) (k : string) :
  o !! "key" = Some (JStr k) -> o !! "value" = None ->
  let not_found :=
    {| code := InvalidRequest; mcp_message := "キーが見つかりません: " +:+ k |} in
  let store' := (callTool JSON_stringify "set_value" (Some o) store).2 in
  store' = <[JStr k := JUndefined]> store
  /\ is_Some (store' !! JStr k)
  /\ store_get (JStr k) store' = (Failure (Die not_found), store')
  /\ callTool JSON_stringify "get_value" (Some o) store'
     = (Throw (FiberFailure (Die not_found)), store')
  /\ store_delete (JStr k) store' = (Success (), delete (JStr k) store).
Proof.
  intros Hkey Hvalue not_found store'.
  assert (store' = <[JStr k := JUndefined]> store) as Hstore.
  { subst store'. unfold callTool, prop. by rewrite Hkey, Hvalue. }
  assert (store_get (JStr k) store' = (Failure (Die not_found), store')) as Hget.
  { rewrite Hstore. unfold store_get, sync. by rewrite lookup_insert_eq. }
  split; [done|].
  split; [rewrite Hstore, lookup_insert_eq; by eexists|].
  split; [done|].
  split.
  - unfold callTool, prop. rewrite Hkey. simpl.
    unfold handleEffect, runSync, Effect.map, Effect.bind.
    by rewrite Hget.
  - rewrite delete_run, Hstore, lookup_insert_eq. by rewrite delete_insert_eq.
Qed.

Lemma undefined_value_hides_key_witness :
  callTool Workspace.render "get_value" (Some {[ "key" := JStr "a" ]})
    (callTool Workspace.render "set_value" (Some {[ "key" := JStr "a" ]}) ∅).2
  = (Throw (FiberFailure
              (Die {| code := InvalidRequest;
                      mcp_message := "キーが見つかりません: a" |})),
     (callTool Workspace.render "set_value" (Some {[ "key" := JStr "a" ]}) ∅).2).
Proof.
  refine (proj1 (proj2 (proj2 (proj2 (undefined_value_hides_key Workspace.render ∅
    {[ "key" := JStr "a" ]} "a" _ _))))); reflexivity.
Defined.

(** X4.  For a store of string keys [list] returns, without changing the
    store, the record that has under every name what the store has under
    that key, and nothing under a name that is no key. *)
Theorem list_is_the_store (store : Store) :
  string_keys store ->
  exists record,
    store_list store = (Success record, store)
    /\ forall k, record !! k = store !! JStr k.
Proof.
  intros Hkeys. eexists. split; [reflexivity|].
  intros k. by apply fromEntries_string_keys.
Qed.

Lemma list_is_the_store_witness :
  exists record,
    store_list {[ JStr "a" := JStr "1" ]} = (Success record, {[ JStr "a" := JStr "1" ]})
    /\ forall k, record !! k = ({[ JStr "a" := JStr "1" ]} : Store) !! JStr k.
Proof.
  refine (list_is_the_store {[ JStr "a" := JStr "1" ]} _).
  apply map_Forall_singleton. by eexists.
Defined.

(** What the handler does to the store, tool by tool. *)
Lemma callTool_store (JSON_stringify : json -> string) name args (store : Store) :
  (callTool JSON_stringify name args store).2
  = match args with
    | Some o =>
        if decide (name = "set_value")
        then <[prop o "key" := prop o "value"]> store
        else if decide (name = "delete_value")
             then delete (prop o "key") store
             else store
    | None => store
    end.
Proof.
  unfold callTool.
  destruct (decide (name = "set_value")) as [->|Hset]; [by destruct args|].
  destruct (decide (name = "get_value")) as [->|Hget].
  { destruct args as [o|]; [|done]. simpl.
    unfold handleEffect, runSync, Effect.map, Effect.bind, store_get, sync.
    by destruct (decide (default JUndefined (store !! prop o "key") = JUndefined)). }
  destruct (decide (name = "delete_value")) as [->|Hdelete].
  { destruct args as [o|]; [|done].
    unfold handleEffect, runSync, Effect.map, Effect.bind.
    rewrite delete_run. destruct (store !! prop o "key") eqn:Hkey; simpl; [done|].
    symmetry. by apply delete_id. }
  destruct (decide (name = "list_values")) as [->|Hlist]; by destruct args.
Qed.

(** X5.  Only [set_value] and [delete_value] change the store, and only when
    they return a result: a call that throws, a [get_value], a [list_values]
    and a call of an unknown tool leave the store as it was. *)
Theorem store_changes_only_by_set_and_delete (JSON_stringify : json -> string)
    (name : string) (args : arguments) (store : Store) :
  (callTool JSON_stringify name args store).2 <> store ->
  (name = "set_value" \/ name = "delete_value")
  /\ exists result, (callTool JSON_stringify name args store).1 = Normal result.
Proof.
  intros Hchanged.
  unfold callTool in *.
  destruct (decide (name = "set_value")) as [->|Hset].
  { split; [by left|]. destruct args as [o|]; [by eexists | done]. }
  destruct (decide (name = "get_value")) as [->|Hget].
  { exfalso. apply Hchanged. destruct args as [o|]; [|done].
    unfold handleEffect, runSync, Effect.map, Effect.bind, store_get, sync.
    by destruct (decide (default JUndefined (store !! prop o "key") = JUndefined)). }
  destruct (decide (name = "delete_value")) as [->|Hdelete].
  { split; [by right|]. destruct args as [o|]; [|done].
    revert Hchanged. unfold handleEffect, runSync, Effect.map, Effect.bind.
    rewrite delete_run. destruct (store !! prop o "key"); simpl; [by eexists | done]. }
  exfalso. apply Hchanged.
  destruct (decide (name = "list_values")) as [->|Hlist]; by destruct args.
Qed.

Lemma store_changes_only_by_set_and_delete_witness :
  exists result,
    (callTool Workspace.render "delete_value" (Some {[ "key" := JStr "a" ]})
       {[ JStr "a" := JStr "1" ]}).1 = Normal result.
Proof.
  refine (proj2 (store_changes_only_by_set_and_delete Workspace.render
    "delete_value" (Some {[ "key" := JStr "a" ]}) {[ JStr "a" := JStr "1" ]} _)).
  intros Heq. apply (f_equal (fun store => store !! JStr "a")) in Heq.
  vm_compute in Heq. discriminate.
Defined.

(** X6.  [set_value] of a string key and a string value answers with the
    two of them in its text and binds the key; a [get_value] of that key
    after it answers with the rendering of the value and leaves the store
    alone. *)
Theorem set_value_then_get_value (JSON_stringify : json -> string)
    (store : Store) (setting getting : gmap string jsval) (k v : string) :
  setting !! "key" = Some (JStr k) -> setting !! "value" = Some (JStr v) ->
  getting !! "key" = Some (JStr k) ->
  callTool JSON_stringify "set_value" (Some setting) store
  = (Normal {| content := [ {| type := "text";
                               text := "値を保存しました: " +:+ k +:+ " = " +:+ v |} ];
               isError := None |},
     <[JStr k := JStr v]> store)
  /\ callTool JSON_stringify "get_value" (Some getting) (<[JStr k := JStr v]> store)
     = (Normal {| content := [ {| type := "text";
                                  text := JSON_stringify (JsonStr v) |} ];
                  isError := None |},
        <[JStr k := JStr v]> store).
Proof.
  intros Hk Hv Hk'. split.
  - unfold callTool, prop. rewrite Hk, Hv. reflexivity.
  - unfold callTool, prop. rewrite Hk'. simpl.
    unfold handleEffect, runSync, Effect.map, Effect.bind.
    rewrite (get_present (JStr k) (JStr v)); [done | apply lookup_insert_eq | done].
Qed.

Lemma set_value_then_get_value_witness :
  callTool Workspace.render "get_value" (Some {[ "key" := JStr "a" ]})
    (<[JStr "a" := JStr "1"]> ∅)
  = (Normal {| content := [ {| type := "text"; text := "1" |} ]; isError := None |},
     <[JStr "a" := JStr "1"]> ∅).
Proof.
  refine (proj2 (set_value_then_get_value Workspace.render ∅
    {[ "key" := JStr "a"; "value" := JStr "1" ]} {[ "key" := JStr "a" ]}
    "a" "1" _ _ _)); reflexivity.
Defined.

(** X7.  The handler of the memory-store server has no error result: what it
    returns is one text block without an [isError] flag; every failure is a
    throw. *)
Theorem store_results_are_successes (JSON_stringify : json -> string)
    (name : string) (args : arguments) (store store' : Store)
    (result : CallToolResult) :
  callTool JSON_stringify name args store = (Normal result, store') ->
  isError result = None
  /\ exists t, content result = [ {| type := "text"; text := t |} ].
Proof.
  unfold callTool.
  repeat case_decide; destruct args as [o|]; try discriminate;
    unfold handleEffect, runSync, Effect.map, Effect.bind, succeed;
    intros Hrun;
    repeat match type of Hrun with
           | context [match ?e ?st with _ => _ end] => destruct (e st) as [[?|?] ?]
           end;
    simpl in Hrun; simplify_eq; simpl; split; try done; by eexists.
Qed.

Lemma store_results_are_successes_witness :
  isError {| content := [ {| type := "text"; text := "値を削除しました: a" |} ];
             isError := None |} = None
  /\ exists t,
       content {| content := [ {| type := "text"; text := "値を削除しました: a" |} ];
                  isError := None |}
       = [ {| type := "text"; text := t |} ].
Proof.
  refine (store_results_are_successes Workspace.render "delete_value"
    (Some {[ "key" := JStr "a" ]}) {[ JStr "a" := JStr "1" ]}
    (delete (JStr "a") {[ JStr "a" := JStr "1" ]}) _ _).
  reflexivity.
Defined.

(** X8.  A call that comes without [arguments] throws a [TypeError] in the
    three tools that read a key, before the store is touched;
    [list_values] does not look at its arguments at all. *)
Theorem store_call_without_arguments (JSON_stringify : json -> string)
    (name : string) (args : arguments) (store : Store) :
  name ∈ ["set_value"; "get_value"; "delete_value"] ->
  callTool JSON_stringify name None store = (Throw TypeError, store)
  /\ callTool JSON_stringify "list_values" args store
     = callTool JSON_stringify "list_values" None store.
Proof.
  intros Hname. split; [|reflexivity].
  apply list_elem_of_In in Hname. simpl in Hname.
  destruct Hname as [<-|[<-|[<-|[]]]]; reflexivity.
Qed.

Lemma store_call_without_arguments_witness :
  callTool Workspace.render "get_value" None {[ JStr "a" := JStr "1" ]}
  = (Throw TypeError, {[ JStr "a" := JStr "1" ]}).
Proof.
  refine (proj1 (store_call_without_arguments Workspace.render "get_value" None
    {[ JStr "a" := JStr "1" ]} _)).
  apply (bool_decide_unpack _). vm_compute. exact I.
Defined.

(** X9.  A store whose keys are strings keeps string keys through every
    call, provided a [set_value] comes with a string under [key]. *)
Theorem string_keys_kept (JSON_stringify : json -> string)
    (name : string) (args : arguments) (store : Store) :
  string_keys store ->
  (forall o, name = "set_value" -> args = Some o ->
     exists s, o !! "key" = Some (JStr s)) ->
  string_keys (callTool JSON_stringify name args store).2.
Proof.
  intros Hkeys Hkey. rewrite callTool_store.
  destruct args as [o|]; [|done].
  destruct (decide (name = "set_value")) as [->|Hset].
  - destruct (Hkey o eq_refl eq_refl) as [s Hs].
    unfold prop at 1. rewrite Hs. simpl.
    apply map_Forall_insert_2; [by eexists | done].
  - destruct (decide (name = "delete_value")); [|done].
    by apply map_Forall_delete.
Qed.

Lemma string_keys_kept_witness :
  string_keys (callTool Workspace.render "set_value"
                 (Some {[ "key" := JStr "a" ]}) {[ JStr "b" := JStr "2" ]}).2.
Proof.
  refine (string_keys_kept Workspace.render "set_value"
    (Some {[ "key" := JStr "a" ]}) {[ JStr "b" := JStr "2" ]} _ _).
  - apply map_Forall_singleton. by eexists.
  - intros o _ Ho. injection Ho as <-. by eexists.
Defined.

End MemoryStoreMore.

(** ** More on the slack service *)

Module SlackMore.
Import JS Mcp Zod Effect Slack.

Ltac unfold_service :=
  unfold sendMessage, getLatestMessage, listChannels, listUsers,
    ensureChannelAccess, Effect.bind, tryPromise, attempt,
    handleSlackResponse, succeed, die, sleep;
  simpl.

(** X10.  When the identity check fails (the call is rejected, the answer is
    not ok, or it names no bot), the reconciliation fails after that one
    call: no channel is looked up, and a send stops there as well. *)
Theorem unverified_identity_stops {W} (api : WebClient W)
    (channelId text : string) (l : list Call) (w0 w1 : W)
    (p : Promise (Response AuthTestBody)) :
  auth_test api w0 = (p, w1) ->
  match p with
  | Resolved r => ok r && truthy_str (user_id (body r))
  | Rejected _ => false
  end = false ->
  let cause :=
    match p with
    | Rejected e => Fail (mkSlackError ("Auth test failed: " +:+ e))
    | Resolved r =>
        if ok r
        then Die (mkSlackError "Bot user ID not found")
        else Die (mkSlackError (or_else (error r) "Unknown Slack error"))
    end in
  ensureChannelAccess api channelId (mkState w0 l)
  = (Failure cause, mkState w1 (l ++ [AuthTest]))
  /\ sendMessage api (mkSendMessageArgs channelId text) (mkState w0 l)
     = (Failure cause, mkState w1 (l ++ [AuthTest])).
Proof.
  intros Hauth Hbad cause.
  assert (ensureChannelAccess api channelId (mkState w0 l)
          = (Failure cause, mkState w1 (l ++ [AuthTest]))) as Hrun.
  { subst cause. unfold_service. rewrite Hauth.
    destruct p as [[[] err [uid]]|e]; simpl in *; [|done..].
    by rewrite Hbad. }
  split; [exact Hrun|].
  unfold sendMessage, Effect.bind. simpl. by rewrite Hrun.
Qed.

Lemma unverified_identity_stops_witness :
  sendMessage (Script.client Script.revoked) (mkSendMessageArgs "C1" "hi") Script.start
  = (Failure (Die (mkSlackError "invalid_auth")), mkState () [AuthTest]).
Proof.
  refine (proj2 (unverified_identity_stops (Script.client Script.revoked)
    "C1" "hi" [] () () (Script.no "invalid_auth" (mkAuthTestBody None)) _ _));
    reflexivity.
Defined.

(** X11.  When the bot is not in the member list and the channel lookup,
    though answered ok, carries no channel, the reconciliation fails with
    ["Channel information not found"] after the member lookup: it neither
    joins nor asks for an invite. *)
Theorem unknown_channel_is_not_joined {W} (api : WebClient W)
    (channelId : string) (l : list Call) (w0 w1 w2 w3 : W)
    (a : Response AuthTestBody) (bot : string)
    (i : Response ConversationsInfoBody)
    (m : Response ConversationsMembersBody) (ids : list string) :
  auth_test api w0 = (Resolved a, w1) -> ok a = true ->
  user_id (body a) = Some bot -> bot <> "" ->
  conversations_info api channelId w1 = (Resolved i, w2) -> ok i = true ->
  channel (body i) = None ->
  conversations_members api channelId w2 = (Resolved m, w3) -> ok m = true ->
  members (body m) = Some ids -> bot ∉ ids ->
  ensureChannelAccess api channelId (mkState w0 l)
  = (Failure (Die (mkSlackError "Channel information not found")),
     mkState w3 (l ++ [AuthTest; ConversationsInfo channelId;
                       ConversationsMembers channelId])).
Proof.
  intros Ha Hoka Hbot Hne Hi Hoki Hch Hm Hokm Hids Hout.
  exact (SlackFacts.ensure_no_channel api channelId l w0 w1 a bot Ha Hoka Hbot Hne
           w2 w3 i m Hi Hoki Hm Hokm ids Hids Hout Hch).
Qed.

Lemma unknown_channel_is_not_joined_witness :
  ensureChannelAccess (Script.client Script.faceless) "C1" Script.start
  = (Failure (Die (mkSlackError "Channel information not found")),
     mkState () [AuthTest; ConversationsInfo "C1"; ConversationsMembers "C1"]).
Proof.
  refine (unknown_channel_is_not_joined (Script.client Script.faceless) "C1" []
    () () () () (mkResponse true None (mkAuthTestBody (Some "UBOT"))) "UBOT"
    (mkResponse true None (mkConversationsInfoBody None))
    (mkResponse true None (mkConversationsMembersBody (Some ["U1"]))) ["U1"]
    _ _ _ _ _ _ _ _ _ _ _); try reflexivity.
  - discriminate.
  - apply (bool_decide_unpack _). vm_compute. exact I.
Defined.

(** X12.  Whatever the workspace answers, the reconciliation of a channel
    does at most five things, in this order: the identity check, the lookup
    of that channel, the lookup of its members, one join of that channel or
    one invite into it, and one delay of 2000 ms.  It calls nothing else and
    touches no other channel. *)
Theorem reconciliation_calls {W} (api : WebClient W) (channelId : string)
    (st : State W) :
  exists added bot,
    log (ensureChannelAccess api channelId st).2 = log st ++ added
    /\ (added `prefix_of`
          [AuthTest; ConversationsInfo channelId; ConversationsMembers channelId;
           ConversationsJoin channelId; Sleep 2000]
        \/ added `prefix_of`
             [AuthTest; ConversationsInfo channelId; ConversationsMembers channelId;
              ConversationsInvite channelId bot; Sleep 2000]).
Proof.
  unfold_service.
  repeat (case_match; simpl in *; simplify_eq);
    rewrite <- ?app_assoc; simpl;
    eexists;
    first [ exists ""; split; [reflexivity | left; by eexists]
          | eexists; split; [reflexivity | right; by eexists] ].
Qed.

(** X13.  Every send and every read starts with the identity check, each
    time: nothing of an earlier reconciliation is kept. *)
Theorem identity_is_checked_first {W} (api : WebClient W)
    (sending : SendMessageArgs) (reading : GetLatestMessageArgs) (st : State W) :
  (exists rest, log (sendMessage api sending st).2 = log st ++ AuthTest :: rest)
  /\ (exists rest, log (getLatestMessage api reading st).2 = log st ++ AuthTest :: rest).
Proof.
  split; unfold_service;
    repeat (case_match; simpl in *; simplify_eq);
    simpl; repeat (rewrite <- app_assoc; simpl); by eexists.
Qed.

(** X14.  After a successful reconciliation a send succeeds exactly when
    the post is answered ok with a non-empty timestamp and a non-empty
    channel, and the result then holds those two as Slack gave them, with
    the status ["success"]. *)
Theorem send_succeeds_iff {W} (api : WebClient W) (args : SendMessageArgs)
    (st st1 : State W) (p : Promise (Response ChatPostMessageBody)) (w' : W)
    (result : SendMessageResult) :
  ensureChannelAccess api (send_channel args) st = (Success (), st1) ->
  chat_postMessage api (send_channel args) (send_text args) (world st1) = (p, w') ->
  (sendMessage api args st).1 = Success result
  <-> exists r ts ch,
        p = Resolved r /\ ok r = true
        /\ post_ts (body r) = Some ts /\ ts <> ""
        /\ post_channel (body r) = Some ch /\ ch <> ""
        /\ result = {| res_status := "success"; res_ts := ts; res_channel := ch |}.
Proof.
  intros Hens Hpost. unfold sendMessage, Effect.bind at 1. rewrite Hens.
  unfold Effect.bind, tryPromise, attempt, handleSlackResponse, succeed, die.
  simpl. rewrite Hpost.
  destruct p as [[[] err [[ts|] [ch|]]]|e]; simpl;
    try destruct (String.eqb_spec ts "") as [->|Hts]; simpl;
    try destruct (String.eqb_spec ch "") as [->|Hch]; simpl;
    (split;
     [ intros Hres; simplify_eq; try by eauto 10
     | intros (r & ts' & ch' & Hp & Hok & Hts' & Hne & Hch' & Hne' & ->);
       simplify_eq; simpl in *; simplify_eq; done ]).
Qed.

Lemma send_succeeds_iff_witness :
  (sendMessage (Script.client Script.healthy) (mkSendMessageArgs "C0" "hi")
     Script.start).1
  = Success {| res_status := "success"; res_ts := "1700000000.000100";
               res_channel := "C1" |}
  <-> exists r ts ch,
        Script.on_post Script.healthy = Resolved r /\ ok r = true
        /\ post_ts (body r) = Some ts /\ ts <> ""
        /\ post_channel (body r) = Some ch /\ ch <> ""
        /\ {| res_status := "success"; res_ts := "1700000000.000100";
              res_channel := "C1" |}
           = {| res_status := "success"; res_ts := ts; res_channel := ch |}.
Proof.
  refine (send_succeeds_iff (Script.client Script.healthy)
    (mkSendMessageArgs "C0" "hi") Script.start
    (mkState () [AuthTest; ConversationsInfo "C0"; ConversationsMembers "C0"])
    (Script.on_post Script.healthy) () _ _ _); reflexivity.
Defined.

(** X15.  After a successful reconciliation a read asks for one message of
    the history.  If the answer is ok, the result is the first message it
    holds; a history that is missing or empty is no failure: the result is
    then the text ["No messages found in the channel"] alone. *)
Theorem latest_message_is_the_first {W} (api : WebClient W)
    (args : GetLatestMessageArgs) (st st1 : State W)
    (r : Response ConversationsHistoryBody) (w' : W) :
  ensureChannelAccess api (latest_channel args) st = (Success (), st1) ->
  conversations_history api (latest_channel args) 1 (world st1) = (Resolved r, w') ->
  ok r = true ->
  getLatestMessage api args st
  = (Success
       match messages (body r) with
       | Some (first :: _) =>
           {| mr_text := msg_text first; mr_user := msg_user first;
              mr_ts := msg_ts first; mr_thread_ts := msg_thread_ts first |}
       | _ =>
           {| mr_text := Some "No messages found in the channel";
              mr_user := None; mr_ts := None; mr_thread_ts := None |}
       end,
     mkState w' (log st1 ++ [ConversationsHistory (latest_channel args) 1])).
Proof.
  intros Hens Hhist Hok. unfold getLatestMessage, Effect.bind at 1. rewrite Hens.
  unfold Effect.bind, tryPromise, attempt, handleSlackResponse, succeed, die.
  simpl. rewrite Hhist. simpl. rewrite Hok. simpl.
  by destruct (messages (body r)) as [[|first rest]|].
Qed.

Lemma latest_message_is_the_first_witness :
  (getLatestMessage (Script.client Script.healthy) (mkGetLatestMessageArgs "C1")
     Script.start).1
  = Success {| mr_text := Some "latest"; mr_user := Some "U1";
               mr_ts := Some "2.0"; mr_thread_ts := None |}
  /\ (getLatestMessage (Script.client Script.mute) (mkGetLatestMessageArgs "C1")
        Script.start).1
     = Success {| mr_text := Some "No messages found in the channel";
                  mr_user := None; mr_ts := None; mr_thread_ts := None |}.
Proof.
  split.
  - refine (f_equal fst (latest_message_is_the_first (Script.client Script.healthy)
      (mkGetLatestMessageArgs "C1") Script.start
      (mkState () [AuthTest; ConversationsInfo "C1"; ConversationsMembers "C1"])
      (mkResponse true None (mkConversationsHistoryBody
         (Some [mkMessage (Some "latest") (Some "U1") (Some "2.0") None;
                mkMessage (Some "older") (Some "U1") (Some "1.0") None])))
      () _ _ _)); reflexivity.
  - refine (f_equal fst (latest_message_is_the_first (Script.client Script.mute)
      (mkGetLatestMessageArgs "C1") Script.start
      (mkState () [AuthTest; ConversationsInfo "C1"; ConversationsMembers "C1"])
      (mkResponse true None (mkConversationsHistoryBody (Some [])))
      () _ _ _)); reflexivity.
Defined.

(** X16.  Listing channels is one call, with the caller's limit and without
    any reconciliation, whether it fails or not; every channel of a result
    has a non-empty id and a non-empty name, the others having been
    dropped. *)
Theorem listed_channels_are_named {W} (api : WebClient W)
    (args : ListChannelsArgs) (st : State W) :
  log (listChannels api args st).2 = log st ++ [ConversationsList (channels_limit args)]
  /\ forall result,
       (listChannels api args st).1 = Success result ->
       Forall (fun c => info_id c <> "" /\ info_name c <> "") (res_channels result).
Proof.
  unfold listChannels, Effect.bind, tryPromise, attempt, handleSlackResponse,
    succeed, die. simpl.
  destruct (conversations_list api (channels_limit args) (world st))
    as [[[[] err [[chs|]]]|e] w]; simpl;
    (split; [reflexivity|]); intros result Hres; simplify_eq;
    simpl; [|by constructor].
  apply Forall_forall. intros c Hin.
  apply list_elem_of_In, List.filter_In in Hin as [_ Hnamed].
  apply andb_prop in Hnamed as [Hid Hname].
  split; intros Heq; rewrite Heq in *; discriminate.
Qed.

(** A list that succeeds, and a list that is refused. *)
Lemma listed_channels_are_named_witness :
  (listChannels (Script.client Script.healthy) (mkListChannelsArgs None)
     Script.start).1
  = Success (mkChannelsResult [mkChannelInfo "C1" "general" false (Some 2%Z)])
  /\ Forall (fun c => info_id c <> "" /\ info_name c <> "")
       [mkChannelInfo "C1" "general" false (Some 2%Z)]
  /\ log (listChannels
            (Script.client
               {| Script.on_auth := Script.on_auth Script.healthy;
                  Script.on_info := Script.on_info Script.healthy;
                  Script.on_members := Script.on_members Script.healthy;
                  Script.on_invite := Script.on_invite Script.healthy;
                  Script.on_join := Script.on_join Script.healthy;
                  Script.on_post := Script.on_post Script.healthy;
                  Script.on_channels := Rejected "Error: timeout";
                  Script.on_users := Script.on_users Script.healthy;
                  Script.on_history := Script.on_history Script.healthy |})
            (mkListChannelsArgs (Some 5%Z)) Script.start).2
     = [ConversationsList (Some 5%Z)].
Proof.
  split; [reflexivity|]. split.
  - refine (proj2 (listed_channels_are_named (Script.client Script.healthy)
      (mkListChannelsArgs None) Script.start)
      (mkChannelsResult [mkChannelInfo "C1" "general" false (Some 2%Z)]) _).
    reflexivity.
  - exact (proj1 (listed_channels_are_named _ (mkListChannelsArgs (Some 5%Z))
                    Script.start)).
Defined.

(** X17.  Listing users is one call, with the caller's limit and without any
    reconciliation, whether it fails or not; every user of a result has a
    non-empty id and a non-empty name, the others having been dropped. *)
Theorem listed_users_are_named {W} (api : WebClient W)
    (args : ListUsersArgs) (st : State W) :
  log (listUsers api args st).2 = log st ++ [UsersList (users_limit args)]
  /\ forall result,
       (listUsers api args st).1 = Success result ->
       Forall (fun u => user_info_id u <> "" /\ user_info_name u <> "")
         (res_users result).
Proof.
  unfold listUsers, Effect.bind, tryPromise, attempt, handleSlackResponse,
    succeed, die. simpl.
  destruct (users_list api (users_limit args) (world st))
    as [[[[] err [[ms|]]]|e] w]; simpl;
    (split; [reflexivity|]); intros result Hres; simplify_eq;
    simpl; [|by constructor].
  apply Forall_forall. intros u Hin.
  apply list_elem_of_In, List.filter_In in Hin as [_ Hnamed].
  apply andb_prop in Hnamed as [Hid Hname].
  split; intros Heq; rewrite Heq in *; discriminate.
Qed.

(** A list that succeeds, and a list that is refused. *)
Lemma listed_users_are_named_witness :
  (listUsers (Script.client Script.healthy) (mkListUsersArgs None) Script.start).1
  = Success (mkUsersResult [mkUserInfo "U1" "ann" (Some "Ann") (Some false)])
  /\ Forall (fun u => user_info_id u <> "" /\ user_info_name u <> "")
       [mkUserInfo "U1" "ann" (Some "Ann") (Some false)]
  /\ log (listUsers
            (Script.client
               {| Script.on_auth := Script.on_auth Script.healthy;
                  Script.on_info := Script.on_info Script.healthy;
                  Script.on_members := Script.on_members Script.healthy;
                  Script.on_invite := Script.on_invite Script.healthy;
                  Script.on_join := Script.on_join Script.healthy;
                  Script.on_post := Script.on_post Script.healthy;
                  Script.on_channels := Script.on_channels Script.healthy;
                  Script.on_users := Script.no "ratelimited" (mkUsersListBody None);
                  Script.on_history := Script.on_history Script.healthy |})
            (mkListUsersArgs (Some 5%Z)) Script.start).2
     = [UsersList (Some 5%Z)].
Proof.
  split; [reflexivity|]. split.
  - refine (proj2 (listed_users_are_named (Script.client Script.healthy)
      (mkListUsersArgs None) Script.start)
      (mkUsersResult [mkUserInfo "U1" "ann" (Some "Ann") (Some false)]) _).
    reflexivity.
  - exact (proj1 (listed_users_are_named _ (mkListUsersArgs (Some 5%Z))
                    Script.start)).
Defined.

(** X24.  A reconciliation that succeeds has made all three inspection
    calls, and if it has joined or asked for an invite it has also waited:
    what it added to the log is the inspection alone, or the inspection, the
    request for that channel and the delay of 2000 ms. *)
Theorem settled_means_inspected {W} (api : WebClient W) (channelId : string)
    (st : State W) :
  (ensureChannelAccess api channelId st).1 = Success () ->
  exists added,
    log (ensureChannelAccess api channelId st).2 = log st ++ added
    /\ (added = [AuthTest; ConversationsInfo channelId; ConversationsMembers channelId]
        \/ added = [AuthTest; ConversationsInfo channelId;
                    ConversationsMembers channelId;
                    ConversationsJoin channelId; Sleep 2000]
        \/ exists bot,
             added = [AuthTest; ConversationsInfo channelId;
                      ConversationsMembers channelId;
                      ConversationsInvite channelId bot; Sleep 2000]).
Proof.
  unfold_service.
  repeat (case_match; simpl in *; simplify_eq);
    intros Hok; try discriminate;
    simpl; repeat (rewrite <- app_assoc; simpl);
    eexists; (split; [reflexivity|]);
    first [ by left | right; by left | right; right; by eexists ].
Qed.

Lemma settled_means_inspected_witness :
  exists added,
    log (ensureChannelAccess Workspace.client "C1"
           (Workspace.fresh Workspace.outside)).2
    = log (Workspace.fresh Workspace.outside) ++ added
    /\ (added = [AuthTest; ConversationsInfo "C1"; ConversationsMembers "C1"]
        \/ added = [AuthTest; ConversationsInfo "C1"; ConversationsMembers "C1";
                    ConversationsJoin "C1"; Sleep 2000]
        \/ exists bot,
             added = [AuthTest; ConversationsInfo "C1"; ConversationsMembers "C1";
                      ConversationsInvite "C1" bot; Sleep 2000]).
Proof.
  refine (settled_means_inspected Workspace.client "C1"
            (Workspace.fresh Workspace.outside) _).
  reflexivity.
Defined.

(** X25.  A send posts, and a read asks for the history, exactly when the
    reconciliation before it has succeeded, whatever made it fail otherwise;
    and that call is the only one they add to those of the
    reconciliation. *)
Theorem guarded_call_follows_success {W} (api : WebClient W)
    (sending : SendMessageArgs) (reading : GetLatestMessageArgs) (st : State W) :
  log (sendMessage api sending st).2
  = log (ensureChannelAccess api (send_channel sending) st).2
    ++ match (ensureChannelAccess api (send_channel sending) st).1 with
       | Success _ => [ChatPostMessage (send_channel sending) (send_text sending)]
       | Failure _ => []
       end
  /\ log (getLatestMessage api reading st).2
     = log (ensureChannelAccess api (latest_channel reading) st).2
       ++ match (ensureChannelAccess api (latest_channel reading) st).1 with
          | Success _ => [ConversationsHistory (latest_channel reading) 1]
          | Failure _ => []
          end.
Proof.
  split.
  - destruct (ensureChannelAccess api (send_channel sending) st)
      as [[[]|cause] st1] eqn:Hens; simpl.
    + by rewrite (SlackFacts.sendMessage_proceeds api sending st st1 Hens).
    + rewrite (SlackFacts.sendMessage_contained api sending st st1 cause Hens).
      simpl. by rewrite app_nil_r.
  - destruct (ensureChannelAccess api (latest_channel reading) st)
      as [[[]|cause] st1] eqn:Hens; simpl.
    + by rewrite (SlackFacts.getLatestMessage_proceeds api reading st st1 Hens).
    + rewrite (SlackFacts.getLatestMessage_contained api reading st st1 cause Hens).
      simpl. by rewrite app_nil_r.
Qed.

(** X26.  How a failed list call comes back, with or without a limit: a
    rejected promise as ["List channels failed: "] and the reason, an answer
    that is not ok as the error text of the answer, and as
    ["Unknown Slack error"] when the answer has no error text or an empty
    one.  In each case the result is an error result, and the list call is
    the one call made. *)
Theorem failed_list_is_reported {W} (api : WebClient W)
    (JSON_stringify : json -> string) (args : arguments) (limit : option Z)
    (st : State W) (p : Promise (Response ConversationsListBody)) (w' : W) :
  ListChannelsSchema_parse args = inr (mkListChannelsArgs limit) ->
  conversations_list api limit (world st) = (p, w') ->
  match p with Resolved r => ok r = false | Rejected _ => True end ->
  callTool api JSON_stringify "list_channels" args st
  = (Normal {| content :=
                 [ {| type := "text";
                      text := "Slack API error: "
                              +:+ match p with
                                  | Rejected e => "List channels failed: " +:+ e
                                  | Resolved r =>
                                      match error r with
                                      | Some (String c e) => String c e
                                      | _ => "Unknown Slack error"
                                      end
                                  end |} ];
               isError := Some true |},
     mkState w' (log st ++ [ConversationsList limit])).
Proof.
  intros Hparse Hlist Hbad.
  unfold callTool. simpl. rewrite Hparse.
  unfold handleResult, listChannels, Effect.bind, tryPromise, attempt,
    handleSlackResponse, succeed, die. simpl. rewrite Hlist.
  destruct p as [[okr [[|c e]|] b]|e]; simpl in *; subst; reflexivity.
Qed.

(** A list with a limit that is answered not ok with an empty error text,
    and a list without a limit whose promise is rejected. *)
Lemma failed_list_is_reported_witness :
  callTool
    (Script.client
       {| Script.on_auth := Script.on_auth Script.healthy;
          Script.on_info := Script.on_info Script.healthy;
          Script.on_members := Script.on_members Script.healthy;
          Script.on_invite := Script.on_invite Script.healthy;
          Script.on_join := Script.on_join Script.healthy;
          Script.on_post := Script.on_post Script.healthy;
          Script.on_channels :=
            Resolved (mkResponse false (Some "") (mkConversationsListBody None));
          Script.on_users := Script.on_users Script.healthy;
          Script.on_history := Script.on_history Script.healthy |})
    Workspace.render "list_channels" (Some {[ "limit" := JNum 50 ]}) Script.start
  = (Normal {| content := [ {| type := "text";
                               text := "Slack API error: Unknown Slack error" |} ];
               isError := Some true |},
     mkState () [ConversationsList (Some 50%Z)])
  /\ callTool
       (Script.client
          {| Script.on_auth := Script.on_auth Script.healthy;
             Script.on_info := Script.on_info Script.healthy;
             Script.on_members := Script.on_members Script.healthy;
             Script.on_invite := Script.on_invite Script.healthy;
             Script.on_join := Script.on_join Script.healthy;
             Script.on_post := Script.on_post Script.healthy;
             Script.on_channels := Rejected "Error: timeout";
             Script.on_users := Script.on_users Script.healthy;
             Script.on_history := Script.on_history Script.healthy |})
       Workspace.render "list_channels" (Some ∅) Script.start
     = (Normal {| content :=
                    [ {| type := "text";
                         text := "Slack API error: List channels failed: Error: timeout" |} ];
                  isError := Some true |},
        mkState () [ConversationsList None]).
Proof.
  split.
  - refine (failed_list_is_reported _ Workspace.render
      (Some {[ "limit" := JNum 50 ]}) (Some 50%Z) Script.start
      (Resolved (mkResponse false (Some "") (mkConversationsListBody None))) ()
      _ _ _); reflexivity.
  - refine (failed_list_is_reported _ Workspace.render (Some ∅) None Script.start
      (Rejected "Error: timeout") () _ _ _); [reflexivity | reflexivity | exact I].
Defined.

End SlackMore.

(** ** More on the slack call handler *)

Module SlackHandlerMore.
Import JS Mcp Zod Effect Slack.

(** A schema that rejects its input has something to say. *)
Lemma send_issues_nonempty args iss :
  SendMessageSchema_parse args = inl iss -> iss <> [].
Proof.
  unfold SendMessageSchema_parse. destruct args as [o|]; [|by intros [= <-]].
  destruct (prop o "channel"), (prop o "text"); simpl; by intros [= <-].
Qed.

Lemma limit_issues_nonempty name (v : jsval) iss :
  z_number_optional name v = inl iss -> iss <> [].
Proof. destruct v; simpl; by intros [= <-]. Qed.

Lemma channels_issues_nonempty args iss :
  ListChannelsSchema_parse args = inl iss -> iss <> [].
Proof.
  unfold ListChannelsSchema_parse. destruct args as [o|]; [|by intros [= <-]].
  destruct (z_number_optional "limit" (prop o "limit")) eqn:Hlimit;
    intros [= <-]. by eapply limit_issues_nonempty.
Qed.

Lemma users_issues_nonempty args iss :
  ListUsersSchema_parse args = inl iss -> iss <> [].
Proof.
  unfold ListUsersSchema_parse. destruct args as [o|]; [|by intros [= <-]].
  destruct (z_number_optional "limit" (prop o "limit")) eqn:Hlimit;
    intros [= <-]. by eapply limit_issues_nonempty.
Qed.

Lemma latest_issues_nonempty args iss :
  GetLatestMessageSchema_parse args = inl iss -> iss <> [].
Proof.
  unfold GetLatestMessageSchema_parse. destruct args as [o|]; [|by intros [= <-]].
  destruct (prop o "channel"); simpl; by intros [= <-].
Qed.

(** [handleResult] returns. *)
Lemma handleResult_returns {W} (JSON_stringify : json -> string) {A} `{ToJson A}
    (effect : Effect (State W) SlackError A) (st : State W) :
  exists t flag,
    (handleResult JSON_stringify effect st).1
    = Normal {| content := [ {| type := "text"; text := t |} ]; isError := flag |}
    /\ (flag = None
        \/ flag = Some true /\ exists msg, t = "Slack API error: " +:+ msg).
Proof.
  unfold handleResult. destruct (effect st) as [[result|cause] st']; simpl.
  - eexists _, _. split; [reflexivity|]. by left.
  - eexists _, _. split; [reflexivity|]. right. split; [done|]. by eexists.
Qed.

(** X18.  When the handler throws, nothing has been done: the world and the
    log are as before.  What it throws is a [ZodError] with at least one
    issue, for a listed tool whose arguments fail its schema, or the
    [MethodNotFound] error, for a name that is not listed. *)
Theorem slack_throws_before_any_call {W} (api : WebClient W)
    (JSON_stringify : json -> string) (name : string) (args : arguments)
    (st st' : State W) (x : exn) :
  callTool api JSON_stringify name args st = (Throw x, st') ->
  st' = st
  /\ (((name ∈ tools) /\ exists iss, x = ZodError iss /\ iss <> [])
      \/ ((name ∉ tools)
          /\ x = McpErr {| code := MethodNotFound;
                           mcp_message := "Unknown tool: " +:+ name |})).
Proof.
  unfold callTool, tools.
  destruct (decide (name = "send_message")) as [->|H1].
  { destruct (SendMessageSchema_parse args) as [iss|a] eqn:Hparse.
    - intros [= <- <-]. split; [done|]. left.
      split; [apply list_elem_of_In; simpl; auto|].
      eexists. split; [done|]. by eapply send_issues_nonempty.
    - intros Hrun. exfalso.
      destruct (handleResult_returns JSON_stringify (sendMessage api a) st)
        as (t & flag & Hret & _).
      rewrite Hrun in Hret. discriminate. }
  destruct (decide (name = "list_channels")) as [->|H2].
  { destruct (ListChannelsSchema_parse args) as [iss|a] eqn:Hparse.
    - intros [= <- <-]. split; [done|]. left.
      split; [apply list_elem_of_In; simpl; auto|].
      eexists. split; [done|]. by eapply channels_issues_nonempty.
    - intros Hrun. exfalso.
      destruct (handleResult_returns JSON_stringify (listChannels api a) st)
        as (t & flag & Hret & _).
      rewrite Hrun in Hret. discriminate. }
  destruct (decide (name = "list_users")) as [->|H3].
  { destruct (ListUsersSchema_parse args) as [iss|a] eqn:Hparse.
    - intros [= <- <-]. split; [done|]. left.
      split; [apply list_elem_of_In; simpl; auto|].
      eexists. split; [done|]. by eapply users_issues_nonempty.
    - intros Hrun. exfalso.
      destruct (handleResult_returns JSON_stringify (listUsers api a) st)
        as (t & flag & Hret & _).
      rewrite Hrun in Hret. discriminate. }
  destruct (decide (name = "get_latest_message")) as [->|H4].
  { destruct (GetLatestMessageSchema_parse args) as [iss|a] eqn:Hparse.
    - intros [= <- <-]. split; [done|]. left.
      split; [apply list_elem_of_In; simpl; auto|].
      eexists. split; [done|]. by eapply latest_issues_nonempty.
    - intros Hrun. exfalso.
      destruct (handleResult_returns JSON_stringify (getLatestMessage api a) st)
        as (t & flag & Hret & _).
      rewrite Hrun in Hret. discriminate. }
  intros [= <- <-]. split; [done|]. right. split; [|done].
  intros Hin. apply list_elem_of_In in Hin. simpl in Hin. intuition congruence.
Qed.

Lemma slack_throws_before_any_call_witness :
  mkState Workspace.outside [] = Workspace.fresh Workspace.outside
  /\ ((("send_message" ∈ tools)
       /\ exists iss,
            ZodError [ {| path := ["text"]; expected := "string";
                          received := "number";
                          issue_message := "Expected string, received number" |} ]
            = ZodError iss /\ iss <> [])
      \/ (("send_message" ∉ tools)
          /\ ZodError [ {| path := ["text"]; expected := "string";
                           received := "number";
                           issue_message := "Expected string, received number" |} ]
             = McpErr {| code := MethodNotFound;
                         mcp_message := "Unknown tool: " +:+ "send_message" |})).
Proof.
  refine (slack_throws_before_any_call Workspace.client Workspace.render
    "send_message" (Some {[ "channel" := JStr "C1"; "text" := JNum 7 ]})
    (Workspace.fresh Workspace.outside) _ _ _).
  reflexivity.
Defined.

(** X19.  A call of a listed tool without [arguments] throws a [ZodError]
    with one issue, at the root, that says an object is required; this
    holds for the two list tools as well, which require no argument.  With
    an empty mapping [list_channels] goes ahead, without a limit. *)
Theorem slack_call_without_arguments {W} (api : WebClient W)
    (JSON_stringify : json -> string) (name : string) (st : State W) :
  name ∈ tools ->
  callTool api JSON_stringify name None st
  = (Throw (ZodError [ {| path := []; expected := "object";
                          received := "undefined";
                          issue_message := "Required" |} ]), st)
  /\ log (callTool api JSON_stringify "list_channels" (Some ∅) st).2
     = log st ++ [ConversationsList None].
Proof.
  intros Hname. split.
  - apply list_elem_of_In in Hname. simpl in Hname.
    destruct Hname as [<-|[<-|[<-|[<-|[]]]]]; reflexivity.
  - unfold callTool, ListChannelsSchema_parse, prop. rewrite lookup_empty. simpl.
    unfold handleResult, listChannels, Effect.bind,
      tryPromise, attempt, handleSlackResponse, succeed, die. simpl.
    repeat (case_match; simpl in *; simplify_eq); reflexivity.
Qed.

Lemma slack_call_without_arguments_witness :
  callTool Workspace.client Workspace.render "list_users" None
    (Workspace.fresh Workspace.outside)
  = (Throw (ZodError [ {| path := []; expected := "object";
                          received := "undefined";
                          issue_message := "Required" |} ]),
     Workspace.fresh Workspace.outside).
Proof.
  refine (proj1 (slack_call_without_arguments Workspace.client Workspace.render
    "list_users" (Workspace.fresh Workspace.outside) _)).
  apply (bool_decide_unpack _). vm_compute. exact I.
Defined.

(** X20.  The schema of [send_message] accepts a mapping exactly when it has
    a string under [channel] and a string under [text], and gives back those
    two strings; whatever else the mapping holds is dropped.  The schema of
    [list_channels] accepts a missing limit and a number, and nothing
    else. *)
Theorem schemas_accept_what_they_return (o : gmap string jsval)
    (sending : SendMessageArgs) (listing : ListChannelsArgs) :
  (SendMessageSchema_parse (Some o) = inr sending
   <-> o !! "channel" = Some (JStr (send_channel sending))
       /\ o !! "text" = Some (JStr (send_text sending)))
  /\ (ListChannelsSchema_parse (Some o) = inr listing
      <-> match prop o "limit" with
          | JUndefined => channels_limit listing = None
          | JNum n => channels_limit listing = Some n
          | _ => False
          end).
Proof.
  split.
  - unfold SendMessageSchema_parse, prop. destruct sending as [c t]. simpl.
    destruct (o !! "channel") as [[]|], (o !! "text") as [[]|]; simpl;
      split; try (intros [= <- <-]; done); try (intros [[=] [=]]; subst; done);
      intros [[=] [=]]; done.
  - unfold ListChannelsSchema_parse. destruct listing as [limit]. simpl.
    destruct (prop o "limit"); simpl; split;
      first [ by intros [= <-] | by intros <- | by intros [=] | done ].
Qed.

(** X21.  The limit of [list_channels] and of [list_users] goes to Slack as
    it comes: the bounds the tool list announces are not checked. *)
Theorem limit_is_passed_unchecked {W} (api : WebClient W)
    (JSON_stringify : json -> string) (o : gmap string jsval) (n : Z)
    (st : State W) :
  o !! "limit" = Some (JNum n) ->
  log (callTool api JSON_stringify "list_channels" (Some o) st).2
  = log st ++ [ConversationsList (Some n)]
  /\ log (callTool api JSON_stringify "list_users" (Some o) st).2
     = log st ++ [UsersList (Some n)].
Proof.
  intros Hlimit.
  unfold callTool, ListChannelsSchema_parse, ListUsersSchema_parse, prop.
  rewrite Hlimit. simpl.
  unfold handleResult, listChannels, listUsers, Effect.bind,
    tryPromise, attempt, handleSlackResponse, succeed, die. simpl.
  split; repeat (case_match; simpl in *; simplify_eq); reflexivity.
Qed.

Lemma limit_is_passed_unchecked_witness :
  log (callTool Workspace.client Workspace.render "list_channels"
         (Some {[ "limit" := JNum (-5) ]}) (Workspace.fresh Workspace.outside)).2
  = [ConversationsList (Some (-5)%Z)].
Proof.
  refine (proj1 (limit_is_passed_unchecked Workspace.client Workspace.render
    {[ "limit" := JNum (-5) ]} (-5) (Workspace.fresh Workspace.outside) _)).
  reflexivity.
Defined.

(** X22.  What the handler returns is one text block, either without an
    [isError] flag or with the flag set and a text that starts with
    ["Slack API error: "]. *)
Theorem slack_results_are_well_formed {W} (api : WebClient W)
    (JSON_stringify : json -> string) (name : string) (args : arguments)
    (st st' : State W) (result : CallToolResult) :
  callTool api JSON_stringify name args st = (Normal result, st') ->
  exists t,
    content result = [ {| type := "text"; text := t |} ]
    /\ (isError result = None
        \/ isError result = Some true
           /\ exists msg, t = "Slack API error: " +:+ msg).
Proof.
  unfold callTool.
  repeat case_decide; try discriminate;
    match goal with
    | |- context [match ?parse with inl _ => _ | inr _ => _ end] =>
        destruct parse as [iss|a]; [discriminate|]
    end;
    intros Hrun;
    match type of Hrun with
    | handleResult _ ?effect _ = _ =>
        destruct (handleResult_returns JSON_stringify effect st)
          as (t & flag & Hret & Hflag)
    end;
    rewrite Hrun in Hret; simpl in Hret; injection Hret as ->;
    exists t; split; done.
Qed.

Lemma slack_results_are_well_formed_witness :
  exists t,
    content {| content := [ {| type := "text";
                               text := "Slack API error: channel_not_found" |} ];
               isError := Some true |}
    = [ {| type := "text"; text := t |} ]
    /\ (isError {| content := [ {| type := "text";
                                   text := "Slack API error: channel_not_found" |} ];
                   isError := Some true |} = None
        \/ isError {| content := [ {| type := "text";
                                      text := "Slack API error: channel_not_found" |} ];
                      isError := Some true |} = Some true
           /\ exists msg, t = "Slack API error: " +:+ msg).
Proof.
  refine (slack_results_are_well_formed Workspace.client Workspace.render
    "send_message" (Some {[ "channel" := JStr "C9"; "text" := JStr "hi" ]})
    (Workspace.fresh Workspace.outside)
    (mkState Workspace.outside [AuthTest; ConversationsInfo "C9"]) _ _).
  reflexivity.
Defined.

End SlackHandlerMore.

(** ** The tool lists and the dispatch *)

Module DispatchMore.
Import JS Mcp Zod Effect.

(** X23.  In both servers the names the tool list announces are exactly the
    names the call handler dispatches: a call throws an [McpError] if and
    only if its name is not listed.  No name is listed twice. *)
Theorem listed_tools_are_dispatched {W} (api : Slack.WebClient W)
    (JSON_stringify : json -> string) (name : string) (args : arguments)
    (store : MemoryStore.Store) (st : Slack.State W) :
  (name ∉ MemoryStore.tools
   <-> exists e store',
         MemoryStore.callTool JSON_stringify name args store
         = (Throw (MemoryStore.McpErr e), store'))
  /\ (name ∉ Slack.tools
      <-> exists e st',
            Slack.callTool api JSON_stringify name args st
            = (Throw (Slack.McpErr e), st'))
  /\ NoDup MemoryStore.tools /\ NoDup Slack.tools.
Proof.
  split; [|split; [|split]].
  - destruct (decide (name ∈ MemoryStore.tools)) as [Hin|Hout].
    + split; [done|]. intros (e & store' & Hrun). exfalso.
      unfold MemoryStore.tools in Hin.
      apply list_elem_of_In in Hin. simpl in Hin.
      destruct Hin as [<-|[<-|[<-|[<-|[]]]]];
        unfold MemoryStore.callTool in Hrun; simpl in Hrun;
        destruct args as [o|]; try discriminate;
        unfold MemoryStore.handleEffect, runSync, Effect.map, Effect.bind, succeed
          in Hrun;
        repeat match type of Hrun with
               | context [match ?e ?s with _ => _ end] =>
                   destruct (e s) as [[?|?] ?]
               end; discriminate.
    + split; [|done]. intros _. unfold MemoryStore.callTool, MemoryStore.tools in *.
      repeat (case_decide; [subst; exfalso; apply Hout; set_solver|]).
      by eexists _, _.
  - destruct (decide (name ∈ Slack.tools)) as [Hin|Hout].
    + split; [done|]. intros (e & st' & Hrun). exfalso.
      unfold Slack.tools in Hin.
      apply list_elem_of_In in Hin. simpl in Hin.
      destruct Hin as [<-|[<-|[<-|[<-|[]]]]];
        unfold Slack.callTool in Hrun; simpl in Hrun;
        match type of Hrun with
        | context [match ?parse with inl _ => _ | inr _ => _ end] =>
            destruct parse as [iss|a]; [discriminate|]
        end;
        unfold Slack.handleResult in Hrun;
        match type of Hrun with
        | context [match ?e ?s with _ => _ end] => destruct (e s) as [[?|?] ?]
        end; discriminate.
    + split; [|done]. intros _. unfold Slack.callTool, Slack.tools in *.
      repeat (case_decide; [subst; exfalso; apply Hout; set_solver|]).
      by eexists _, _.
  - apply (bool_decide_unpack _). vm_compute. exact I.
  - apply (bool_decide_unpack _). vm_compute. exact I.
Qed.

End DispatchMore.
